(** * Coordinates-Intro: a shallow embedding of the notebook's code cells

    The notebook [tutorials/notebooks/Coordinates-Intro/Coordinates-Intro.ipynb]
    sequences calls into [astropy.units], [astropy.coordinates] and
    [urllib].  Python floats are modelled by exact rationals ([Q]); the
    concrete numbers of the notebook are additionally evaluated in IEEE
    binary64 ([SpecFloat]) where a statement speaks of a tolerance. *)

From Stdlib Require Import QArith Qround Qabs ZArith Lia Lqa.
From Stdlib Require Import Floats.SpecFloat DecimalString DecimalPos DecimalZ Ascii String.
From stdpp Require Import gmap strings list fin_maps.

Local Open Scope Q_scope.

(** ** astropy.units: the angular units the notebook touches *)

Module Units.

(** [u.deg], [u.arcmin], [u.arcsec] and the unit of the [.hour] property. *)
Inductive Unit : Type := deg | arcmin | arcsec | hourangle.

(** Modelled from the spec: the unit table of astropy is not under src/;
    the size of one unit in degrees, 60 arcminutes and 3600 arcseconds to the
    degree and 15 degrees to the hour. *)
Definition in_deg (un : Unit) : Q :=
  match un with
  | deg => 1
  | arcmin => 1 # 60
  | arcsec => 1 # 3600
  | hourangle => 15
  end.

(** A [Quantity]: a number with its unit, as built by [12*u.arcmin]. *)
Record Quantity : Type := mkQuantity { value : Q; unit : Unit }.

(** [x * un], e.g. [12*u.arcmin] or [9.81625*u.deg]. *)
Definition qty (x : Q) (un : Unit) : Quantity := mkQuantity x un.

(** Modelled from the spec: [Quantity.to] of astropy is not under src/;
    [q.to(un)] is the same angle counted in [un]. *)
Definition to (un : Unit) (q : Quantity) : Quantity :=
  mkQuantity (value q * in_deg (unit q) / in_deg un) un.

(** [q.to_value(un)], i.e. [q.to(un).value]. *)
Definition to_value (un : Unit) (q : Quantity) : Q := value (to un q).

End Units.
Import Units.

(** ** The Python built-ins and [urllib.parse] functions the cells call *)

Module Py.

(** A floating-point result: a finite number, or one of the three
    non-finite values that a division by zero produces on [numpy.float64]. *)
Inductive pyfloat : Type :=
| Fin (q : Q)
| PInf
| NInf
| NaN.

(** [x / n] for a [numpy.float64] [x] and a Python [int] [n]: the quotient,
    and [inf], [-inf] or [nan] (with a warning, not an exception) at [n = 0].
    The quotient is the exact one: the rounding of binary64, its underflow
    and the [OverflowError] of an [int] beyond the float range are not
    modelled, so the value is the program's where the division is exact in
    binary64, as 720/1024 is. *)
Definition truediv (x : Q) (n : Z) : pyfloat :=
  if (n =? 0)%Z then
    match Qcompare x 0 with
    | Gt => PInf
    | Lt => NInf
    | Eq => NaN
    end
  else Fin (x / inject_Z n).

(** The values that are put in the query dictionary. *)
Inductive pyval : Type :=
| PyInt (n : Z)
| PyFloat (x : pyfloat)
| PyStr (s : string).

(** [str(n)] for an [int]. *)
Definition str_int (n : Z) : string :=
  DecimalString.NilZero.string_of_int (Z.to_int n).

Section Str.

(** [str(x)] on a finite float is the interpreter's shortest round-trip
    printer; it is a fixed function of the number and is left abstract. *)
Variable float_str : Q -> string.

Definition str_float (x : pyfloat) : string :=
  match x with
  | Fin q => float_str q
  | PInf => "inf"
  | NInf => "-inf"
  | NaN => "nan"
  end.

Definition str (v : pyval) : string :=
  match v with
  | PyInt n => str_int n
  | PyFloat x => str_float x
  | PyStr s => s
  end.

End Str.

(** [urllib.parse]: the characters [quote] never escapes,
    [A-Z a-z 0-9 _ . - ~]. *)
Definition always_safe (c : ascii) : bool :=
  let n := N_of_ascii c in
  ((65 <=? n) && (n <=? 90) || (97 <=? n) && (n <=? 122)
   || (48 <=? n) && (n <=? 57)
   || (n =? 95) || (n =? 46) || (n =? 45) || (n =? 126))%N.

Definition hex_digit (n : N) : ascii :=
  if (n <? 10)%N then ascii_of_N (48 + n) else ascii_of_N (55 + n).

(** ["%XX"], upper-case hexadecimal, as [quote] writes an escaped byte. *)
Definition percent (c : ascii) : string :=
  let n := N_of_ascii c in
  String "%" (String (hex_digit (n / 16)) (String (hex_digit (n mod 16)) EmptyString)).

(** Every character of the string is one [quote] keeps. *)
Fixpoint all_safe (s : string) : bool :=
  match s with
  | EmptyString => true
  | String c rest => always_safe c && all_safe rest
  end.

(** [quote_plus(s)] with the default [safe='']: a space becomes [+], a safe
    character is kept and every other byte is percent-escaped. *)
Fixpoint quote_plus (s : string) : string :=
  match s with
  | EmptyString => EmptyString
  | String c rest =>
      if Ascii.eqb c " " then String "+" (quote_plus rest)
      else if always_safe c then String c (quote_plus rest)
      else percent c +:+ quote_plus rest
  end.

(** ['&'.join(l)]. *)
Fixpoint join_amp (l : list string) : string :=
  match l with
  | [] => EmptyString
  | [x] => x
  | x :: rest => x +:+ "&" +:+ join_amp rest
  end.

(** [urlencode(query)] for a dictionary given in insertion order: every
    item becomes [quote_plus(str(k)) + '=' + quote_plus(str(v))]. *)
Definition urlencode (float_str : Q -> string) (query : list (string * pyval)) : string :=
  join_amp (map (fun kv => quote_plus (fst kv) +:+ "=" +:+ quote_plus (str float_str (snd kv)))
                query).

(** A finite-decimal printer: sign, integer part, and the fraction digits
    up to the first exact stop (at most [fuel] of them).  On the decimal
    literals of the notebook it prints what [str] prints. *)
Fixpoint frac_digits (fuel : nat) (r d : Z) : string :=
  match fuel with
  | O => EmptyString
  | S fuel' =>
      if (r =? 0)%Z then EmptyString
      else str_int (10 * r / d) +:+ frac_digits fuel' (10 * r mod d) d
  end.

Definition decimal_str (q : Q) : string :=
  let n := Z.abs (Qnum q) in
  let d := Z.pos (Qden q) in
  let frac := frac_digits 17 (n mod d) d in
  (if (Qnum q <? 0)%Z then "-" else "")
    +:+ str_int (n / d) +:+ "."
    +:+ (if String.eqb frac "" then "0" else frac).

End Py.
Import Py.

(** ** Exceptions and fallible results *)

Module Exc.

(** The exceptions that can leave a cell. *)
Inductive exn : Type :=
| ValueError
| NameResolveError
| URLError
| NameError
| AttributeError
| ContentTooShortError
| IncompleteRead.

Inductive result (A : Type) : Type :=
| Ok (a : A)
| Raise (e : exn).
Arguments Ok {A} a.
Arguments Raise {A} e.

Definition bind {A B : Type} (m : result A) (k : A -> result B) : result B :=
  match m with
  | Ok a => k a
  | Raise e => Raise e
  end.

Definition is_ok {A : Type} (m : result A) : bool :=
  match m with Ok _ => true | Raise _ => false end.

End Exc.
Import Exc.

Notation "'let*' x ':=' m 'in' k" := (Exc.bind m (fun x => k))
  (at level 10, x name, m at level 100, k at level 200).

(** ** astropy.coordinates: angles and sky positions *)

Module Coordinates.

(** The reference frames a position can be tagged with. *)
Inductive Frame : Type := ICRS | FK5 | FK4 | Galactic.

(** Modelled from the spec: the frame registry of astropy is not under
    src/; a frame is named by its lower-case string, and an unknown name is
    refused. *)
Definition frame_of_name (s : string) : result Frame :=
  if String.eqb s "icrs" then Ok ICRS
  else if String.eqb s "fk5" then Ok FK5
  else if String.eqb s "fk4" then Ok FK4
  else if String.eqb s "galactic" then Ok Galactic
  else Raise ValueError.

(** Modelled from the spec: astropy's [Longitude] is not under src/; the
    data model keeps a right ascension in [0, 360) degrees, which the class
    does by wrapping the angle by whole turns, in the angle's own unit. *)
Definition Longitude (a : Quantity) : Quantity :=
  let turn := 360 / in_deg (unit a) in
  mkQuantity (value a - turn * inject_Z (Qfloor (value a / turn))) (unit a).

(** Modelled from the spec: astropy's [Latitude] is not under src/; a
    declination outside [-90, 90] degrees is rejected, here with the
    [ValueError] the class raises. *)
Definition Latitude (a : Quantity) : result Quantity :=
  let lim := 90 / in_deg (unit a) in
  if Qle_bool (- lim) (value a) && Qle_bool (value a) lim
  then Ok a else Raise ValueError.

(** A celestial position: two angles and the frame tag. *)
Record SkyCoord : Type := mkSkyCoord { ra : Quantity; dec : Quantity; frame : Frame }.

(** Modelled from the spec: the [SkyCoord] constructor of astropy is not
    under src/; [SkyCoord(lon, lat, frame=name)] looks the frame up, checks
    the latitude and wraps the longitude. *)
Definition SkyCoord_new (lon lat : Quantity) (name : string) : result SkyCoord :=
  let* f := frame_of_name name in
  let* d := Latitude lat in
  Ok (mkSkyCoord (Longitude lon) d f).

(** The [.deg] and [.hour] properties of an angle. *)
Definition deg_of (a : Quantity) : Q := to_value deg a.
Definition hour_of (a : Quantity) : Q := to_value hourangle a.

(** The invariant of the data model. *)
Definition ra_in_range (c : SkyCoord) : Prop :=
  0 <= deg_of (ra c) /\ deg_of (ra c) < 360.
Definition dec_in_range (c : SkyCoord) : Prop :=
  -(90) <= deg_of (dec c) /\ deg_of (dec c) <= 90.
Definition valid (c : SkyCoord) : Prop := ra_in_range c /\ dec_in_range c.

(** *** Angles written in sexagesimal: ['0h39m15.9s'], ['0d53m17.016s'] *)

Definition is_digit (c : ascii) : bool :=
  let n := N_of_ascii c in ((48 <=? n) && (n <=? 57))%N.

Definition digit_val (c : ascii) : Z := Z.of_N (N_of_ascii c) - 48.

(** Reads the longest run of digits: its value, its length and the rest. *)
Fixpoint digits_acc (s : string) (acc : Z) (cnt : nat) : Z * nat * string :=
  match s with
  | String c rest =>
      if is_digit c then digits_acc rest (10 * acc + digit_val c)%Z (S cnt)
      else (acc, cnt, s)
  | EmptyString => (acc, cnt, s)
  end.

Definition read_int (s : string) : option (Z * string) :=
  let '(v, n, r) := digits_acc s 0%Z O in
  if Nat.eqb n 0 then None else Some (v, r).

(** The number a run of decimal digits denotes, read from the most
    significant digit with [acc] already read. *)
Fixpoint uint_val (d : Decimal.uint) (acc : Z) : Z :=
  match d with
  | Decimal.Nil => acc
  | Decimal.D0 l => uint_val l (10 * acc)
  | Decimal.D1 l => uint_val l (10 * acc + 1)
  | Decimal.D2 l => uint_val l (10 * acc + 2)
  | Decimal.D3 l => uint_val l (10 * acc + 3)
  | Decimal.D4 l => uint_val l (10 * acc + 4)
  | Decimal.D5 l => uint_val l (10 * acc + 5)
  | Decimal.D6 l => uint_val l (10 * acc + 6)
  | Decimal.D7 l => uint_val l (10 * acc + 7)
  | Decimal.D8 l => uint_val l (10 * acc + 8)
  | Decimal.D9 l => uint_val l (10 * acc + 9)
  end%Z.

(** The text does not go on with a digit. *)
Definition ends_number (rest : string) : Prop :=
  match rest with
  | String c _ => is_digit c = false
  | EmptyString => True
  end.

(** An integer with an optional fraction part, as an exact rational. *)
Definition read_decimal (s : string) : option (Q * string) :=
  match read_int s with
  | None => None
  | Some (i, String "." rest) =>
      let '(f, n, r) := digits_acc rest 0%Z O in
      Some (inject_Z i + inject_Z f / inject_Z (10 ^ Z.of_nat n), r)
  | Some (i, r) => Some (inject_Z i, r)
  end.

Definition read_sign (s : string) : bool * string :=
  match s with
  | String "-" r => (true, r)
  | String "+" r => (false, r)
  | _ => (false, s)
  end.

Definition read_unit (s : string) : option (Unit * string) :=
  match s with
  | String "h" r => Some (hourangle, r)
  | String "d" r => Some (deg, r)
  | _ => None
  end.

Definition expect (c : ascii) (s : string) : option string :=
  match s with
  | String c' r => if Ascii.eqb c c' then Some r else None
  | EmptyString => None
  end.

Definition of_option {A : Type} (o : option A) : result A :=
  match o with Some a => Ok a | None => Raise ValueError end.

(** Modelled from the spec: the angle parser of astropy is not under src/;
    this is its reading of the two forms the notebook writes,
    [<int>h<int>m<decimal>s] (hours) and [<int>d<int>m<decimal>s]
    (degrees), with minutes and seconds of at most 60. *)
Definition parse_angle (s : string) : result Quantity :=
  let '(neg, s1) := read_sign s in
  let* w := of_option (read_int s1) in
  let* un := of_option (read_unit (snd w)) in
  let* m := of_option (read_int (snd un)) in
  let* s2 := of_option (expect "m" (snd m)) in
  let* sec := of_option (read_decimal s2) in
  let* s3 := of_option (expect "s" (snd sec)) in
  if negb (String.eqb s3 "") then Raise ValueError
  else if negb (fst m <=? 60)%Z then Raise ValueError
  else if Qle_bool (fst sec) 60 then
    let mag := inject_Z (fst w) + inject_Z (fst m) / 60 + fst sec / 3600 in
    Ok (mkQuantity (if neg then - mag else mag) (fst un))
  else Raise ValueError.

(** [SkyCoord('0h39m15.9s', '0d53m17.016s', frame='icrs')]. *)
Definition SkyCoord_str (lon lat name : string) : result SkyCoord :=
  let* a := parse_angle lon in
  let* b := parse_angle lat in
  SkyCoord_new a b name.

(** Modelled from the spec: [SkyCoord.from_name] of astropy is not under
    src/; [sesame] stands for the remote resolution service, which answers
    a name with a right ascension and a declination in degrees or fails.
    The answer is made a position in the ICRS frame by the constructor. *)
Definition from_name (sesame : string -> option (Q * Q)) (name : string)
  : result SkyCoord :=
  match sesame name with
  | None => Raise NameResolveError
  | Some (r, d) => SkyCoord_new (qty r deg) (qty d deg) "icrs"
  end.

(** *** Formatting *)

(** The sexagesimal fields of an angle in its own unit: sign, whole part,
    minutes and seconds. *)
Record Sexagesimal : Type :=
  mkSexagesimal { negative : bool; whole : Z; minutes : Z; seconds : Q }.

Definition sexagesimal (a : Quantity) : Sexagesimal :=
  let v := Qabs (value a) in
  let w := Qfloor v in
  let rm := (v - inject_Z w) * 60 in
  let m := Qfloor rm in
  mkSexagesimal (Qnum (value a) <? 0)%Z w m ((rm - inject_Z m) * 60).

(** The number a sexagesimal reading denotes. *)
Definition sexagesimal_value (x : Sexagesimal) : Q :=
  let mag := inject_Z (whole x) + inject_Z (minutes x) / 60 + seconds x / 3600 in
  if negative x then - mag else mag.

Definition unit_name (un : Unit) : string :=
  match un with
  | deg => "d"
  | hourangle => "h"
  | arcmin => "arcmin"
  | arcsec => "arcsec"
  end.

(** Modelled from the spec: [Angle.to_string] of astropy is not under src/;
    degrees and hours are written in sexagesimal, the other units as a
    number followed by the unit.  [num_str] prints a number. *)
Definition to_string (num_str : Q -> string) (a : Quantity) : string :=
  match unit a with
  | deg | hourangle =>
      let x := sexagesimal a in
      (if negative x then "-" else "")
        +:+ str_int (whole x) +:+ unit_name (unit a)
        +:+ str_int (minutes x) +:+ "m"
        +:+ num_str (seconds x) +:+ "s"
  | _ => num_str (value a) +:+ unit_name (unit a)
  end.

(** *** Provenance *)

(** The three ways the notebook obtains a position. *)
Inductive constructed : SkyCoord -> Prop :=
| by_name (sesame : string -> option (Q * Q)) (name : string) (c : SkyCoord) :
    from_name sesame name = Ok c -> constructed c
| by_number (lon lat : Quantity) (name : string) (c : SkyCoord) :
    SkyCoord_new lon lat name = Ok c -> constructed c
| by_string (lon lat name : string) (c : SkyCoord) :
    SkyCoord_str lon lat name = Ok c -> constructed c.

End Coordinates.
Import Coordinates.

(** ** The notebook: kernel state and code cells *)

Module Notebook.

(** What a global name of the kernel can be bound to. *)
Inductive obj : Type :=
| Val (v : pyval)
| Qty (q : Quantity)
| Sky (c : SkyCoord).

(** A request sent to a remote service: one entry for one call of
    [SkyCoord.from_name] or of [urlretrieve].  The messages the library
    exchanges for one call (mirrors of the resolver, redirects) are inside
    the call and are not counted. *)
Inductive Request : Type :=
| Resolve (name : string)
| Get (url : string).

(** How a download that does not complete ends: the URL cannot be opened
    (no connection, or an error status), or it is opened and the body is cut
    after [got] has arrived, either by ending before its announced length or
    by an error while reading. *)
Inductive Failure : Type :=
| Unreachable
| TooShort (got : list Byte.byte)
| ReadError (got : list Byte.byte).

(** The remote services.  Each answer may depend on how many requests were
    sent before it, so a service can fail now and answer later.  [http_get]
    gives the body of a download that completes; where it gives none,
    [http_fail] tells how the download ends. *)
Record Net : Type := mkNet {
  sesame : nat -> string -> option (Q * Q);
  http_get : nat -> string -> option (list Byte.byte);
  http_fail : nat -> string -> Failure
}.

(** The kernel: global names, local files, printed lines, displayed cell
    values, and the requests sent so far. *)
Record Kernel : Type := mkKernel {
  globals : gmap string obj;
  files : gmap string (list Byte.byte);
  stdout : list string;
  displayed : list obj;
  requests : list Request
}.

Definition empty_kernel : Kernel := mkKernel ∅ ∅ [] [] [].

(** A cell threads the kernel and may raise; the kernel keeps what was
    done before the exception. *)
Definition M (A : Type) : Type := Kernel -> result A * Kernel.

Definition ret {A : Type} (a : A) : M A := fun k => (Ok a, k).

Definition mbind {A B : Type} (m : M A) (f : A -> M B) : M B :=
  fun k =>
    match m k with
    | (Ok a, k') => f a k'
    | (Raise e, k') => (Raise e, k')
    end.

Definition lift {A : Type} (r : result A) : M A := fun k => (r, k).

End Notebook.
Import Notebook.

Notation "'let!' x ':=' m 'in' k" := (Notebook.mbind m (fun x => k))
  (at level 10, x name, m at level 100, k at level 200).
Notation "m1 ';;' m2" := (Notebook.mbind m1 (fun _ => m2))
  (at level 100, m2 at level 200, right associativity).

Module Cells.

(** [x = v]. *)
Definition assign (x : string) (v : obj) : M () :=
  fun k => (Ok tt, mkKernel (<[x := v]> (globals k)) (files k) (stdout k)
                            (displayed k) (requests k)).

(** Reading a global for its [.ra] and [.dec]: the name must be bound, and
    bound to a position. *)
Definition get_sky (x : string) : M SkyCoord :=
  fun k =>
    match globals k !! x with
    | Some (Sky c) => (Ok c, k)
    | Some _ => (Raise AttributeError, k)
    | None => (Raise NameError, k)
    end.

(** [print(line)]. *)
Definition print (line : string) : M () :=
  fun k => (Ok tt, mkKernel (globals k) (files k) (stdout k ++ [line])
                            (displayed k) (requests k)).

(** The value of a cell's last expression is displayed. *)
Definition display (v : obj) : M () :=
  fun k => (Ok tt, mkKernel (globals k) (files k) (stdout k)
                            (displayed k ++ [v]) (requests k)).

Definition log (r : Request) (k : Kernel) : Kernel :=
  mkKernel (globals k) (files k) (stdout k) (displayed k) (requests k ++ [r]).

Section WithRuntime.

(** The interpreter's float printer and the remote services. *)
Variable float_str : Q -> string.
Variable net : Net.

(** [SkyCoord.from_name(name)]: one call of the resolver, logged as one
    request; what the library sends for it is inside [sesame]'s answer. *)
Definition from_name_req (name : string) : M SkyCoord :=
  fun k =>
    (from_name (sesame net (length (requests k))) name, log (Resolve name) k).

(** [open(filename, 'wb')] followed by the writes: the file holds [bytes]
    and nothing of what it held. *)
Definition write_file (filename : string) (bytes : list Byte.byte) (k : Kernel)
  : Kernel :=
  mkKernel (globals k) (<[filename := bytes]> (files k))
           (stdout k) (displayed k) (requests k).

(** [urlretrieve(url, filename)]: one blocking GET.  When the URL cannot be
    opened, [URLError] is raised and the file is not touched.  Once it is
    opened the file is opened for writing, which empties it, and the body is
    written as it arrives: all of it when the download completes, and what
    had arrived when it is cut, in which case [ContentTooShortError] or the
    error of the read is raised and the file is left with that part. *)
Definition urlretrieve (url filename : string) : M () :=
  fun k =>
    let k1 := log (Get url) k in
    match http_get net (length (requests k)) url with
    | Some body => (Ok tt, write_file filename body k1)
    | None =>
        match http_fail net (length (requests k)) url with
        | Unreachable => (Raise URLError, k1)
        | TooShort got => (Raise ContentTooShortError, write_file filename got k1)
        | ReadError got => (Raise IncompleteRead, write_file filename got k1)
        end
    end.

(** Cell: [hcg7_center = SkyCoord.from_name('HCG 7')], for any name. *)
Definition cell_from_name_of (name : string) : M () :=
  let! c := from_name_req name in
  assign "hcg7_center" (Sky c).

Definition cell_from_name : M () := cell_from_name_of "HCG 7".

(** Cell (offered for use without a connection):
    [hcg7_center = SkyCoord(9.81625*u.deg, 0.88806*u.deg, frame='icrs')]. *)
Definition cell_literal : M () :=
  let! c := lift (SkyCoord_new (qty (981625 # 100000) deg)
                                (qty (88806 # 100000) deg) "icrs") in
  assign "hcg7_center" (Sky c).

(** Cell: [print(hcg7_center.ra, hcg7_center.dec)] and
    [print(hcg7_center.ra.hour, hcg7_center.dec)]. *)
Definition cell_print : M () :=
  let! c := get_sky "hcg7_center" in
  print (to_string float_str (ra c) +:+ " " +:+ to_string float_str (dec c)) ;;
  let! c' := get_sky "hcg7_center" in
  print (float_str (hour_of (ra c')) +:+ " " +:+ to_string float_str (dec c')).

(** Cell: [hcg7_center.ra, hcg7_center.dec]. *)
Definition cell_ra_dec : M () :=
  let! c := get_sky "hcg7_center" in
  display (Qty (ra c)) ;; display (Qty (dec c)).

(** Cell: [hcg7_center]. *)
Definition cell_show : M () :=
  let! c := get_sky "hcg7_center" in
  display (Sky c).

(** Cell: [hcg7_center.ra.hour]. *)
Definition cell_hour : M () :=
  let! c := get_sky "hcg7_center" in
  display (Val (PyFloat (Fin (hour_of (ra c))))).

(** Cell: [SkyCoord('0h39m15.9s', '0d53m17.016s', frame='icrs')]. *)
Definition cell_sexagesimal : M () :=
  let! c := lift (SkyCoord_str "0h39m15.9s" "0d53m17.016s" "icrs") in
  display (Sky c).

(** *** The cutout cell *)

Definition cutoutbaseurl : string :=
  "http://skyservice.pha.jhu.edu/DR12/ImgCutout/getjpeg.aspx".

Definition cutout_file : string := "HCG7_SDSS_cutout.jpg".

(** [im_size.to(u.arcsec).value/im_pixels]. *)
Definition scale (im_size : Quantity) (im_pixels : Z) : pyfloat :=
  truediv (value (to arcsec im_size)) im_pixels.

(** [dict(ra=..., dec=..., width=..., height=..., scale=...)]. *)
Definition cutout_query (c : SkyCoord) (im_size : Quantity) (im_pixels : Z)
  : list (string * pyval) :=
  [ ("ra", PyFloat (Fin (deg_of (ra c))));
    ("dec", PyFloat (Fin (deg_of (dec c))));
    ("width", PyInt im_pixels);
    ("height", PyInt im_pixels);
    ("scale", PyFloat (scale im_size im_pixels)) ].

Definition cutout_url (c : SkyCoord) (im_size : Quantity) (im_pixels : Z) : string :=
  cutoutbaseurl +:+ "?" +:+ urlencode float_str (cutout_query c im_size im_pixels).

(** The cell with the size of the cutout left open. *)
Definition cell_cutout_with (im_size : Quantity) (im_pixels : Z) : M () :=
  assign "im_size" (Qty im_size) ;;
  assign "im_pixels" (Val (PyInt im_pixels)) ;;
  assign "cutoutbaseurl" (Val (PyStr cutoutbaseurl)) ;;
  let! c := get_sky "hcg7_center" in
  let query_string := urlencode float_str (cutout_query c im_size im_pixels) in
  assign "query_string" (Val (PyStr query_string)) ;;
  let url := cutoutbaseurl +:+ "?" +:+ query_string in
  assign "url" (Val (PyStr url)) ;;
  urlretrieve url "HCG7_SDSS_cutout.jpg".

(** The cell as written: [im_size = 12*u.arcmin], [im_pixels = 1024]. *)
Definition cell_cutout : M () := cell_cutout_with (qty 12 arcmin) 1024.

(** The globals after the assignments of the cutout cell. *)
Definition cutout_globals (c : SkyCoord) (im_size : Quantity) (im_pixels : Z)
    (g : gmap string obj) : gmap string obj :=
  <["url" := Val (PyStr (cutout_url c im_size im_pixels))]>
    (<["query_string" :=
         Val (PyStr (urlencode float_str (cutout_query c im_size im_pixels)))]>
       (<["cutoutbaseurl" := Val (PyStr cutoutbaseurl)]>
          (<["im_pixels" := Val (PyInt im_pixels)]>
             (<["im_size" := Qty im_size]> g)))).

(** The cells that read the position: the formatting cells and the
    cutout cell. *)
Inductive uses_position : M () -> Prop :=
| uses_print : uses_position cell_print
| uses_ra_dec : uses_position cell_ra_dec
| uses_hour : uses_position cell_hour
| uses_show : uses_position cell_show
| uses_cutout (im_size : Quantity) (im_pixels : Z) :
    uses_position (cell_cutout_with im_size im_pixels).

(** Every code cell of the notebook that touches the kernel. *)
Inductive notebook_cell : M () -> Prop :=
| nb_from_name (name : string) : notebook_cell (cell_from_name_of name)
| nb_literal : notebook_cell cell_literal
| nb_sexagesimal : notebook_cell cell_sexagesimal
| nb_uses (cell : M ()) : uses_position cell -> notebook_cell cell.

End WithRuntime.

(** An object that, if it is a position, is a constructed one. *)
Definition is_constructed (v : obj) : Prop :=
  forall c, v = Sky c -> constructed c.

(** Every position the kernel holds, bound to a name or displayed, came out
    of one of the constructions. *)
Definition positions_constructed (k : Kernel) : Prop :=
  (forall (x : string) (c : SkyCoord),
      globals k !! x = Some (Sky c) -> constructed c)
  /\ (forall c : SkyCoord, In (Sky c) (displayed k) -> constructed c).

(** A computation keeps [positions_constructed], and its result satisfies
    [post]. *)
Definition keeps {A : Type} (m : M A) (post : A -> Prop) : Prop :=
  forall k, positions_constructed k ->
            positions_constructed (snd (m k))
            /\ forall a, fst (m k) = Ok a -> post a.

(** A cell that only shows: it leaves the names, the files and the request
    log as they were, and only adds to what is printed and displayed. *)
Definition only_shows (cell : M ()) : Prop :=
  forall k : Kernel,
    globals (snd (cell k)) = globals k
    /\ files (snd (cell k)) = files k
    /\ requests (snd (cell k)) = requests k
    /\ (exists out, stdout (snd (cell k)) = stdout k ++ out)
    /\ (exists shown, displayed (snd (cell k)) = displayed k ++ shown).

(** Cells run one after the other, each on the kernel the previous one
    left, whether it raised or not. *)
Definition run_cells (cells : list (M ())) (k : Kernel) : Kernel :=
  fold_left (fun k' cell => snd (cell k')) cells k.

(** [d[key]] on a dictionary kept in insertion order. *)
Fixpoint dict_get (key : string) (d : list (string * pyval)) : option pyval :=
  match d with
  | [] => None
  | (k', v) :: rest => if String.eqb key k' then Some v else dict_get key rest
  end.

End Cells.
Import Cells.

(** ** The contract of the specification, for comparison with the cell *)

Module Contract.

(** From the specification's words:
    [fetchCutout(position, fieldOfView, pixelWidth, pixelHeight)] computes
    [scale = fieldOfView_in_arcsec / pixelWidth] and queries with the
    parameters [ra], [dec], [width], [height], [scale]. *)
Definition fetchCutout_scale (fieldOfView : Quantity) (pixelWidth : Z) : pyfloat :=
  truediv (to_value arcsec fieldOfView) pixelWidth.

Definition fetchCutout_query (position : SkyCoord) (fieldOfView : Quantity)
    (pixelWidth pixelHeight : Z) : list (string * pyval) :=
  [ ("ra", PyFloat (Fin (deg_of (ra position))));
    ("dec", PyFloat (Fin (deg_of (dec position))));
    ("width", PyInt pixelWidth);
    ("height", PyInt pixelHeight);
    ("scale", PyFloat (fetchCutout_scale fieldOfView pixelWidth)) ].

End Contract.

(** ** Reading a query string back *)

Module Query.

(** How often a character occurs. *)
Fixpoint count_char (c : ascii) (s : string) : nat :=
  match s with
  | EmptyString => O
  | String c' rest => (if Ascii.eqb c' c then 1 else 0) + count_char c rest
  end.

(** The value of a hexadecimal digit, in either case. *)
Definition hex_val (c : ascii) : option N :=
  let n := N_of_ascii c in
  if ((48 <=? n) && (n <=? 57))%N then Some (n - 48)%N
  else if ((65 <=? n) && (n <=? 70))%N then Some (n - 55)%N
  else if ((97 <=? n) && (n <=? 102))%N then Some (n - 87)%N
  else None.

(** The reading of [quote_plus]'s writing: [+] is a space, [%XX] is the
    byte XX, and any other character is itself. *)
Fixpoint unquote_plus (s : string) : string :=
  match s with
  | EmptyString => EmptyString
  | String c rest =>
      if Ascii.eqb c "+" then String " " (unquote_plus rest)
      else if Ascii.eqb c "%" then
        match rest with
        | String a (String b rest') =>
            match hex_val a, hex_val b with
            | Some x, Some y =>
                String (ascii_of_N (16 * x + y)) (unquote_plus rest')
            | _, _ => String c (unquote_plus rest)
            end
        | _ => String c (unquote_plus rest)
        end
      else String c (unquote_plus rest)
  end.

(** The pieces of a string between the occurrences of [sep]. *)
Fixpoint split_on (sep : ascii) (s : string) : list string :=
  match s with
  | EmptyString => [EmptyString]
  | String c rest =>
      if Ascii.eqb c sep then EmptyString :: split_on sep rest
      else match split_on sep rest with
           | x :: xs => String c x :: xs
           | [] => [String c EmptyString]
           end
  end.

(** The parts before and after the first [sep]. *)
Fixpoint break_at (sep : ascii) (s : string) : string * string :=
  match s with
  | EmptyString => (EmptyString, EmptyString)
  | String c rest =>
      if Ascii.eqb c sep then (EmptyString, rest)
      else (String c (fst (break_at sep rest)), snd (break_at sep rest))
  end.

(** One [key=value] item read back. *)
Definition decode_item (s : string) : string * string :=
  (unquote_plus (fst (break_at "=" s)), unquote_plus (snd (break_at "=" s))).

(** A query string read back: its items, in order. *)
Definition decode_query (s : string) : list (string * string) :=
  if String.eqb s "" then [] else map decode_item (split_on "&" s).

(** The items [urlencode] writes: every key with its value printed. *)
Definition printed_items (float_str : Q -> string) (query : list (string * pyval))
  : list (string * string) :=
  map (fun kv => (fst kv, str float_str (snd kv))) query.

(** One item as [urlencode] writes it. *)
Definition written_item (float_str : Q -> string) (kv : string * pyval) : string :=
  quote_plus (fst kv) +:+ "=" +:+ quote_plus (str float_str (snd kv)).

End Query.
Import Query.

(** ** IEEE binary64 evaluation of the notebook's numbers *)

Module Binary64.

Definition prec : Z := 53.
Definition emax : Z := 1024.

(** The float of an integer (exact below 2^53). *)
Definition of_Z (z : Z) : spec_float := binary_normalize prec emax z 0 false.

Definition mul : spec_float -> spec_float -> spec_float := SFmul prec emax.
Definition div : spec_float -> spec_float -> spec_float := SFdiv prec emax.
Definition add : spec_float -> spec_float -> spec_float := SFadd prec emax.

(** The float of the decimal literal [n / 10^k], for [n] and [10^k] below
    2^53: one correctly rounded division of two exact floats. *)
Definition of_decimal (n : Z) (k : nat) : spec_float :=
  div (of_Z n) (of_Z (10 ^ Z.of_nat k)).

(** The rational a finite float stands for. *)
Definition to_Q (x : spec_float) : option Q :=
  match x with
  | S754_zero _ => Some 0
  | S754_finite s m e => Some (inject_Z (cond_Zopp s (Z.pos m)) * Qpower 2 e)
  | _ => None
  end.

(** [|x - y| <= tol] on finite floats. *)
Definition close (tol : Q) (x y : spec_float) : bool :=
  match to_Q x, to_Q y with
  | Some a, Some b => Qle_bool (Qabs (a - b)) tol
  | _, _ => false
  end.

(** The float of pi, [0x1.921fb54442d18p+1]. *)
Definition pi : spec_float := S754_finite false 7074237752028440 (-51).

(** Modelled from the spec: the unit definitions of astropy are not under
    src/; the size of a unit in radians as the library computes it in
    floats: the degree is [pi / 180.0], the hour angle [15.0] degrees, the
    arcminute and the arcsecond [1.0 / 60.0] and [1.0 / 3600.0] of a degree. *)
Definition unit_scale (un : Unit) : spec_float :=
  let degree := div pi (of_Z 180) in
  match un with
  | deg => degree
  | hourangle => mul (of_Z 15) degree
  | arcmin => mul (div (of_Z 1) (of_Z 60)) degree
  | arcsec => mul (div (of_Z 1) (of_Z 3600)) degree
  end.

(** Modelled from the spec: the unit conversion of astropy is not under
    src/; a value is converted by one multiplication with the conversion
    factor, the quotient of the two unit sizes. *)
Definition factor (from to_ : Unit) : spec_float :=
  div (unit_scale from) (unit_scale to_).

Definition convert (from to_ : Unit) (x : spec_float) : spec_float :=
  mul x (factor from to_).

(** [9.81625] degrees; its [.hour]; the hour value times 15; and the hour
    value converted back to degrees. *)
Definition ra_literal : spec_float := of_decimal 981625 5.
Definition ra_hours : spec_float := convert deg hourangle ra_literal.
Definition ra_hours_times_15 : spec_float := mul ra_hours (of_Z 15).
Definition ra_back : spec_float := convert hourangle deg ra_hours.

(** Modelled from the spec: the sexagesimal reader of astropy is not under
    src/; ['0h39m15.9s'] read as hours, [h + m/60 + s/3600], and its [.deg]. *)
Definition hms_hours : spec_float :=
  add (add (of_Z 0) (div (of_Z 39) (of_Z 60))) (div (of_decimal 159 1) (of_Z 3600)).
Definition hms_deg : spec_float := convert hourangle deg hms_hours.

(** One unit in the last place of a float between 8 and 16. *)
Definition ulp_at_9 : Q := 1 # 2 ^ 49.

(** [12 * 60 / 1024]. *)
Definition scale_12_1024 : spec_float :=
  div (mul (of_Z 12) (of_Z 60)) (of_Z 1024).

End Binary64.

(** ** A worked run of the notebook *)

Module Run.

(** The position of the literal cell. *)
Definition literal_position : SkyCoord :=
  mkSkyCoord (qty (981625 # 100000) deg) (qty (88806 # 100000) deg) ICRS.

(** Services that are down for the first request and up afterwards: the
    resolver then answers with the position the notebook quotes for HCG 7,
    and the image server with a four-byte body. *)
Definition flaky_net : Net :=
  mkNet (fun n _ => if Nat.eqb n 0 then None else Some (9849 # 1000, 878 # 1000))
        (fun n _ => if Nat.eqb n 0 then None
                    else Some [Byte.xff; Byte.xd8; Byte.xff; Byte.xe0])
        (fun _ _ => Unreachable).

(** Services that always answer. *)
Definition good_net : Net :=
  mkNet (fun _ _ => Some (9849 # 1000, 878 # 1000))
        (fun _ _ => Some [Byte.xff; Byte.xd8; Byte.xff; Byte.xe0])
        (fun _ _ => Unreachable).


(** The kernel once the literal cell has run. *)
Definition literal_kernel : Kernel := snd (cell_literal empty_kernel).

End Run.

(** * Properties *)

(** ** Units *)

Section UnitFacts.

Lemma in_deg_pos un : 0 < in_deg un.
Proof. destruct un; reflexivity. Qed.

Lemma in_deg_nonzero un : ~ in_deg un == 0.
Proof. destruct un; discriminate. Qed.

Lemma to_value_same q : to_value (unit q) q == value q.
Proof.
  unfold to_value, to; simpl. field. apply in_deg_nonzero.
Qed.

Lemma to_value_to un1 un2 q : to_value un2 (to un1 q) == to_value un2 q.
Proof.
  unfold to_value, to; simpl. field. split; apply in_deg_nonzero.
Qed.

Lemma deg_of_eq a : deg_of a == value a * in_deg (unit a).
Proof. unfold deg_of, to_value, to; simpl. field. Qed.

Lemma hour_of_eq a : hour_of a == value a * in_deg (unit a) / 15.
Proof. unfold hour_of, to_value, to; simpl. field. Qed.

(** The hour value is the degree value divided by 15. *)
Lemma hour_of_deg_of a : hour_of a == deg_of a / 15.
Proof. rewrite hour_of_eq, deg_of_eq. reflexivity. Qed.

End UnitFacts.

(** ** Longitude and latitude *)

Section AngleRanges.

Lemma floor_bracket (x : Q) :
  inject_Z (Qfloor x) <= x /\ x < inject_Z (Qfloor x) + 1.
Proof.
  split; [apply Qfloor_le |].
  pose proof (Qlt_floor x) as H.
  rewrite inject_Z_plus in H. exact H.
Qed.

(** A wrapped angle lies in [0, 360) degrees. *)
Lemma Longitude_range a :
  0 <= deg_of (Longitude a) /\ deg_of (Longitude a) < 360.
Proof.
  rewrite deg_of_eq. unfold Longitude; cbn [value unit].
  pose proof (in_deg_pos (unit a)) as Hu.
  set (u := in_deg (unit a)) in *.
  set (x := value a / (360 / u)).
  destruct (floor_bracket x) as [Hlo Hhi].
  set (f := inject_Z (Qfloor x)) in *.
  assert (Hx : value a * u == x * 360).
  { unfold x. field. lra. }
  assert (Hg : (value a - 360 / u * f) * u == value a * u - 360 * f).
  { field. lra. }
  rewrite Hg, Hx. split; lra.
Qed.

Lemma Longitude_unit a : unit (Longitude a) = unit a.
Proof. reflexivity. Qed.

(** Whole turns are all that wrapping removes. *)
Lemma Longitude_turns a :
  exists n : Z, deg_of (Longitude a) == deg_of a - 360 * inject_Z n.
Proof.
  exists (Qfloor (value a / (360 / in_deg (unit a)))).
  rewrite !deg_of_eq. unfold Longitude; cbn [value unit].
  field. apply in_deg_nonzero.
Qed.

Lemma Latitude_Ok a d :
  Latitude a = Ok d -> d = a /\ -(90) <= deg_of a /\ deg_of a <= 90.
Proof.
  unfold Latitude. intros H.
  destruct (Qle_bool (- (90 / in_deg (unit a))) (value a)) eqn:Hlo; [| discriminate].
  destruct (Qle_bool (value a) (90 / in_deg (unit a))) eqn:Hhi; [| discriminate].
  simpl in H. inversion H; subst d. split; [reflexivity |].
  apply Qle_bool_iff in Hlo, Hhi.
  pose proof (in_deg_pos (unit a)) as Hu.
  rewrite deg_of_eq.
  set (u := in_deg (unit a)) in *.
  assert (E : 90 / u * u == 90) by (field; lra).
  assert (H1 : - (90 / u) * u <= value a * u)
    by (apply Qmult_le_compat_r; [exact Hlo | lra]).
  assert (H2 : value a * u <= 90 / u * u)
    by (apply Qmult_le_compat_r; [exact Hhi | lra]).
  split; lra.
Qed.

Lemma Latitude_out_of_range a :
  deg_of a < -(90) \/ 90 < deg_of a -> Latitude a = Raise ValueError.
Proof.
  intros H. destruct (Latitude a) as [d | e] eqn:E.
  - apply Latitude_Ok in E. destruct E as (_ & Hlo & Hhi). lra.
  - unfold Latitude in E.
    destruct (_ && _); [discriminate | symmetry; exact E].
Qed.

Lemma Latitude_in_range a :
  -(90) <= deg_of a -> deg_of a <= 90 -> Latitude a = Ok a.
Proof.
  intros Hlo Hhi. unfold Latitude.
  pose proof (in_deg_pos (unit a)) as Hu.
  rewrite deg_of_eq in Hlo, Hhi.
  set (u := in_deg (unit a)) in *.
  assert (E : 90 / u * u == 90) by (field; lra).
  assert (H1 : Qle_bool (- (90 / u)) (value a) = true).
  { apply Qle_bool_iff.
    apply Qmult_le_r with (z := u); [exact Hu | lra]. }
  assert (H2 : Qle_bool (value a) (90 / u) = true).
  { apply Qle_bool_iff.
    apply Qmult_le_r with (z := u); [exact Hu | lra]. }
  rewrite H1, H2. reflexivity.
Qed.

End AngleRanges.

(** ** Constructing positions *)

Section Construction.

Lemma frame_of_name_icrs : frame_of_name "icrs" = Ok ICRS.
Proof. reflexivity. Qed.

(** What a successful construction fixes. *)
Lemma SkyCoord_new_Ok lon lat name c :
  SkyCoord_new lon lat name = Ok c ->
  frame_of_name name = Ok (frame c) /\ Latitude lat = Ok (dec c)
  /\ dec c = lat /\ ra c = Longitude lon.
Proof.
  unfold SkyCoord_new. intros H.
  destruct (frame_of_name name) as [f | e]; [| discriminate].
  destruct (Latitude lat) as [d | e] eqn:E; [| discriminate].
  simpl in H. inversion H; subst c; simpl.
  apply Latitude_Ok in E as E'. destruct E' as [-> _].
  repeat split; assumption.
Qed.

Lemma SkyCoord_new_valid lon lat name c :
  SkyCoord_new lon lat name = Ok c -> valid c.
Proof.
  intros H. apply SkyCoord_new_Ok in H.
  destruct H as (_ & Hlat & _ & Hra).
  split.
  - unfold ra_in_range. rewrite Hra. apply Longitude_range.
  - apply Latitude_Ok in Hlat. destruct Hlat as (Hd & Hlo & Hhi).
    unfold dec_in_range. rewrite <- Hd in Hlo, Hhi. split; assumption.
Qed.

Lemma SkyCoord_new_rejects lon lat name :
  deg_of lat < -(90) \/ 90 < deg_of lat ->
  is_ok (SkyCoord_new lon lat name) = false.
Proof.
  intros H. unfold SkyCoord_new.
  destruct (frame_of_name name); [| reflexivity].
  simpl. rewrite (Latitude_out_of_range _ H). reflexivity.
Qed.

Lemma SkyCoord_str_Ok lon lat name c :
  SkyCoord_str lon lat name = Ok c ->
  exists a b, parse_angle lon = Ok a /\ parse_angle lat = Ok b
              /\ SkyCoord_new a b name = Ok c.
Proof.
  unfold SkyCoord_str. intros H.
  destruct (parse_angle lon) as [a | e]; [| discriminate].
  destruct (parse_angle lat) as [b | e]; [| discriminate].
  exists a, b. repeat split; exact H.
Qed.

Lemma from_name_Ok sesame name c :
  from_name sesame name = Ok c ->
  exists r d, sesame name = Some (r, d)
              /\ SkyCoord_new (qty r deg) (qty d deg) "icrs" = Ok c.
Proof.
  unfold from_name. intros H.
  destruct (sesame name) as [[r d] |]; [| discriminate].
  exists r, d. split; [reflexivity | exact H].
Qed.

End Construction.

(** ** The cutout scale *)

(** C1: the cutout scale is the field of view converted to arcseconds,
    divided by the pixel width.  For a field of 12 arcminutes and 1024
    pixels the field is 720 arcseconds and the scale is 720/1024 = 0.703125
    arcseconds per pixel, which is printed as [0.703125]; the same quotient
    evaluated in binary64 is exactly that number. *)
Theorem scale_is_fov_arcsec_over_width :
  (forall (im_size : Quantity) (im_pixels : Z),
      scale im_size im_pixels = truediv (to_value arcsec im_size) im_pixels)
  /\ (forall (im_size : Quantity) (w : positive),
         scale im_size (Z.pos w)
         = Fin (to_value arcsec im_size / inject_Z (Z.pos w)))
  /\ to_value arcsec (qty 12 arcmin) == 720
  /\ (exists s : Q,
         scale (qty 12 arcmin) 1024 = Fin s
         /\ s == 720 / 1024 /\ s == 703125 # 1000000
         /\ decimal_str s = "0.703125")
  /\ Binary64.to_Q Binary64.scale_12_1024 = Some (6333186975989760 # 9007199254740992)
  /\ 6333186975989760 # 9007199254740992 == 703125 # 1000000.
Proof.
  split; [reflexivity |].
  split; [reflexivity |].
  split; [reflexivity |].
  split.
  { eexists. split; [reflexivity |]. repeat split; vm_compute; reflexivity. }
  split; vm_compute; reflexivity.
Qed.

Section CutoutRun.

Variable float_str : Q -> string.
Variable net : Net.

Lemma cell_cutout_with_run c im_size im_pixels k :
  globals k !! "hcg7_center" = Some (Sky c) ->
  cell_cutout_with float_str net im_size im_pixels k
  = urlretrieve net (cutout_url float_str c im_size im_pixels) cutout_file
      (mkKernel (cutout_globals float_str c im_size im_pixels (globals k))
                (files k) (stdout k) (displayed k) (requests k)).
Proof.
  intros H.
  unfold cell_cutout_with, mbind, assign, get_sky. cbn.
  rewrite !lookup_insert_ne by done. rewrite H. reflexivity.
Qed.

End CutoutRun.

(** ** The query string *)

Section QueryString.

(** A string of safe characters is its own quotation. *)
Lemma quote_plus_safe s : all_safe s = true -> quote_plus s = s.
Proof.
  induction s as [| c rest IH]; simpl; [reflexivity |].
  intros H. apply andb_prop in H as [Hc Hrest].
  destruct (Ascii.eqb c " ") eqn:E.
  - apply Ascii.eqb_eq in E. subst c. discriminate Hc.
  - rewrite Hc, (IH Hrest). reflexivity.
Qed.

Lemma all_safe_digits d : all_safe (NilEmpty.string_of_uint d) = true.
Proof. induction d; simpl; try reflexivity; exact IHd. Qed.

Lemma all_safe_uint d : all_safe (NilZero.string_of_uint d) = true.
Proof. destruct d; try reflexivity; apply (all_safe_digits (_ d)). Qed.

(** The decimal writing of an integer needs no escaping. *)
Lemma quote_plus_str_int n : quote_plus (str_int n) = str_int n.
Proof.
  apply quote_plus_safe. unfold str_int, NilZero.string_of_int.
  destruct (Z.to_int n) as [d | d].
  - apply all_safe_uint.
  - simpl. apply all_safe_uint.
Qed.

Variable float_str : Q -> string.

(** The query string, item by item. *)
Lemma urlencode_cutout_query c im_size im_pixels :
  urlencode float_str (cutout_query c im_size im_pixels)
  = ("ra=" +:+ quote_plus (float_str (deg_of (ra c))))
    +:+ "&" +:+ ("dec=" +:+ quote_plus (float_str (deg_of (dec c))))
    +:+ "&" +:+ ("width=" +:+ str_int im_pixels)
    +:+ "&" +:+ ("height=" +:+ str_int im_pixels)
    +:+ "&" +:+ ("scale=" +:+ quote_plus (str_float float_str (scale im_size im_pixels))).
Proof.
  unfold urlencode, cutout_query; cbn [map join_amp fst snd str].
  rewrite !quote_plus_str_int. reflexivity.
Qed.

End QueryString.

Section UrlRetrieve.

Variable net : Net.

Lemma urlretrieve_requests url filename k :
  requests (snd (urlretrieve net url filename k)) = requests k ++ [Get url].
Proof.
  unfold urlretrieve.
  destruct (http_get net (length (requests k)) url); [reflexivity |].
  destruct (http_fail net (length (requests k)) url); reflexivity.
Qed.

Lemma urlretrieve_globals url filename k :
  globals (snd (urlretrieve net url filename k)) = globals k.
Proof.
  unfold urlretrieve.
  destruct (http_get net (length (requests k)) url); [reflexivity |].
  destruct (http_fail net (length (requests k)) url); reflexivity.
Qed.

Lemma urlretrieve_files_other url filename k (f : string) :
  f <> filename ->
  files (snd (urlretrieve net url filename k)) !! f = files k !! f.
Proof.
  intros Hf. unfold urlretrieve.
  destruct (http_get net (length (requests k)) url);
    [| destruct (http_fail net (length (requests k)) url)];
    cbn [snd files write_file log]; try reflexivity;
    apply lookup_insert_ne; congruence.
Qed.

End UrlRetrieve.

(** C2: for every position and cutout size, the cutout cell requests the
    fixed endpoint with the query parameters ra, dec, width, height and scale,
    in this order and no others, ra and dec being the position's decimal
    degrees; it calls [urlretrieve] once with that URL, and the bytes that are
    retrieved are written to ['HCG7_SDSS_cutout.jpg'] and to no other file.
    A download that completes leaves the body in the file.  When the URL
    cannot be opened the cell raises [URLError] and the file is as it was;
    when the body is cut the cell raises and the file holds the part that
    had arrived. *)
Theorem cutout_request_url_and_file
    (float_str : Q -> string) (net : Net) (c : SkyCoord)
    (im_size : Quantity) (im_pixels : Z) (k : Kernel) :
  globals k !! "hcg7_center" = Some (Sky c) ->
  let url := cutout_url float_str c im_size im_pixels in
  let run := cell_cutout_with float_str net im_size im_pixels k in
  url = "http://skyservice.pha.jhu.edu/DR12/ImgCutout/getjpeg.aspx" +:+ "?"
        +:+ ("ra=" +:+ quote_plus (float_str (deg_of (ra c))))
        +:+ "&" +:+ ("dec=" +:+ quote_plus (float_str (deg_of (dec c))))
        +:+ "&" +:+ ("width=" +:+ str_int im_pixels)
        +:+ "&" +:+ ("height=" +:+ str_int im_pixels)
        +:+ "&" +:+ ("scale="
                     +:+ quote_plus (str_float float_str (scale im_size im_pixels)))
  /\ map fst (cutout_query c im_size im_pixels)
     = ["ra"; "dec"; "width"; "height"; "scale"]
  /\ dict_get "ra" (cutout_query c im_size im_pixels)
     = Some (PyFloat (Fin (to_value deg (ra c))))
  /\ dict_get "dec" (cutout_query c im_size im_pixels)
     = Some (PyFloat (Fin (to_value deg (dec c))))
  /\ requests (snd run) = requests k ++ [Get url]
  /\ match http_get net (length (requests k)) url with
     | Some body =>
         fst run = Ok tt
         /\ files (snd run) = <["HCG7_SDSS_cutout.jpg" := body]> (files k)
     | None =>
         match http_fail net (length (requests k)) url with
         | Unreachable => fst run = Raise URLError /\ files (snd run) = files k
         | TooShort got =>
             fst run = Raise ContentTooShortError
             /\ files (snd run) = <["HCG7_SDSS_cutout.jpg" := got]> (files k)
         | ReadError got =>
             fst run = Raise IncompleteRead
             /\ files (snd run) = <["HCG7_SDSS_cutout.jpg" := got]> (files k)
         end
     end
  /\ (forall f : string,
         f <> "HCG7_SDSS_cutout.jpg" -> files (snd run) !! f = files k !! f).
Proof.
  intros H url run.
  assert (Hrun : run = urlretrieve net url cutout_file
                   (mkKernel (cutout_globals float_str c im_size im_pixels (globals k))
                             (files k) (stdout k) (displayed k) (requests k)))
    by (apply cell_cutout_with_run; exact H).
  split.
  { unfold url, cutout_url. rewrite urlencode_cutout_query. reflexivity. }
  split; [reflexivity |].
  split; [reflexivity |].
  split; [reflexivity |].
  split.
  { rewrite Hrun, urlretrieve_requests. reflexivity. }
  split.
  { rewrite Hrun. unfold urlretrieve; cbn [requests].
    destruct (http_get net (length (requests k)) url);
      [| destruct (http_fail net (length (requests k)) url)];
      split; reflexivity. }
  intros f Hf. rewrite Hrun.
  rewrite urlretrieve_files_other by exact Hf. reflexivity.
Qed.

Lemma cutout_request_url_and_file_witness :
  globals Run.literal_kernel !! "hcg7_center" = Some (Sky Run.literal_position)
  /\ requests (snd (cell_cutout decimal_str Run.good_net Run.literal_kernel))
     = [Get ("http://skyservice.pha.jhu.edu/DR12/ImgCutout/getjpeg.aspx"
             +:+ "?ra=9.81625&dec=0.88806&width=1024&height=1024&scale=0.703125")]
  /\ files (snd (cell_cutout decimal_str Run.good_net Run.literal_kernel))
       !! "HCG7_SDSS_cutout.jpg"
     = Some [Byte.xff; Byte.xd8; Byte.xff; Byte.xe0].
Proof.
  assert (Hk : globals Run.literal_kernel !! "hcg7_center"
               = Some (Sky Run.literal_position)) by (vm_compute; reflexivity).
  pose proof (cutout_request_url_and_file decimal_str Run.good_net
                Run.literal_position (qty 12 arcmin) 1024 Run.literal_kernel Hk) as H.
  cbv zeta in H. destruct H as (_ & _ & _ & _ & Hreq & Hfile & _).
  split; [exact Hk |]. split.
  - unfold cell_cutout. rewrite Hreq. vm_compute. reflexivity.
  - unfold cell_cutout. cbn [http_get Run.good_net] in Hfile.
    destruct Hfile as [_ Hfile]. rewrite Hfile. apply lookup_insert_eq.
Defined.

(** C9: the request of the cutout cell is square, its width and height being
    the one pixel count [im_pixels] (1024 in the cell as written); the cell
    issues the contract's query at a height equal to the width, and in the
    contract the scale is computed from the field of view and the width, so
    that two heights give the same scale. *)
Theorem cutout_is_square_and_scale_ignores_height :
  (forall c im_size im_pixels,
      dict_get "width" (cutout_query c im_size im_pixels) = Some (PyInt im_pixels)
      /\ dict_get "height" (cutout_query c im_size im_pixels) = Some (PyInt im_pixels)
      /\ dict_get "scale" (cutout_query c im_size im_pixels)
         = Some (PyFloat (truediv (to_value arcsec im_size) im_pixels)))
  /\ (forall c im_size im_pixels,
         cutout_query c im_size im_pixels
         = Contract.fetchCutout_query c im_size im_pixels im_pixels)
  /\ (forall c fieldOfView pixelWidth h1 h2,
         dict_get "scale" (Contract.fetchCutout_query c fieldOfView pixelWidth h1)
         = dict_get "scale" (Contract.fetchCutout_query c fieldOfView pixelWidth h2))
  /\ (forall float_str net k,
         let k' := snd (cell_cutout float_str net k) in
         globals k' !! "im_pixels" = Some (Val (PyInt 1024))
         /\ forall c, globals k !! "hcg7_center" = Some (Sky c) ->
              exists q, globals k' !! "query_string" = Some (Val (PyStr q))
                /\ q = urlencode float_str (cutout_query c (qty 12 arcmin) 1024)
                /\ dict_get "width" (cutout_query c (qty 12 arcmin) 1024)
                   = Some (PyInt 1024)
                /\ dict_get "height" (cutout_query c (qty 12 arcmin) 1024)
                   = Some (PyInt 1024)).
Proof.
  split; [intros; repeat split; reflexivity |].
  split; [reflexivity |].
  split; [reflexivity |].
  intros float_str net k k'. split.
  - unfold k', cell_cutout, cell_cutout_with, mbind, assign. cbn.
    destruct (get_sky "hcg7_center" _) as [[c | e] k1] eqn:E.
    + unfold get_sky in E. cbn in E.
      destruct (_ !! "hcg7_center") as [[| | c'] |]; inversion E; subst; clear E.
      rewrite urlretrieve_globals. cbn.
      rewrite !lookup_insert_ne by done. apply lookup_insert_eq.
    + unfold get_sky in E. cbn in E.
      destruct (_ !! "hcg7_center") as [[| | c'] |]; inversion E; subst; clear E;
        cbn; rewrite !lookup_insert_ne by done; apply lookup_insert_eq.
  - intros c Hc. eexists. split; [| split; [reflexivity | split; reflexivity]].
    unfold k', cell_cutout.
    rewrite (cell_cutout_with_run float_str net c _ _ k Hc).
    rewrite urlretrieve_globals. cbn [globals]. unfold cutout_globals.
    rewrite lookup_insert_ne by done. apply lookup_insert_eq.
Qed.

(** C10: the request URL is a function of the position, the field of view
    and the pixel count alone.  Two runs of the cutout cell that agree on
    these, in any two kernels and against any two networks, bind [url] to
    the same string and send the same request. *)
Theorem cutout_url_deterministic
    (float_str : Q -> string) (net1 net2 : Net) (k1 k2 : Kernel)
    (c : SkyCoord) (im_size : Quantity) (im_pixels : Z) :
  globals k1 !! "hcg7_center" = Some (Sky c) ->
  globals k2 !! "hcg7_center" = Some (Sky c) ->
  let run1 := snd (cell_cutout_with float_str net1 im_size im_pixels k1) in
  let run2 := snd (cell_cutout_with float_str net2 im_size im_pixels k2) in
  globals run1 !! "url" = Some (Val (PyStr (cutout_url float_str c im_size im_pixels)))
  /\ globals run1 !! "url" = globals run2 !! "url"
  /\ last (requests run1) = last (requests run2)
  /\ last (requests run1) = Some (Get (cutout_url float_str c im_size im_pixels)).
Proof.
  intros H1 H2 run1 run2. unfold run1, run2.
  rewrite (cell_cutout_with_run float_str net1 c im_size im_pixels k1 H1).
  rewrite (cell_cutout_with_run float_str net2 c im_size im_pixels k2 H2).
  rewrite !urlretrieve_globals, !urlretrieve_requests. cbn [globals requests].
  unfold cutout_globals. rewrite !lookup_insert_eq, !last_snoc.
  repeat split; reflexivity.
Qed.

Lemma cutout_url_deterministic_witness :
  globals (snd (cell_cutout decimal_str Run.good_net Run.literal_kernel)) !! "url"
  = globals (snd (cell_cutout decimal_str Run.flaky_net
                    (snd (cell_print decimal_str Run.literal_kernel)))) !! "url".
Proof.
  assert (H1 : globals Run.literal_kernel !! "hcg7_center"
               = Some (Sky Run.literal_position)) by (vm_compute; reflexivity).
  assert (H2 : globals (snd (cell_print decimal_str Run.literal_kernel))
                 !! "hcg7_center"
               = Some (Sky Run.literal_position)) by (vm_compute; reflexivity).
  exact (proj1 (proj2 (cutout_url_deterministic decimal_str Run.good_net
                         Run.flaky_net _ _ Run.literal_position
                         (qty 12 arcmin) 1024 H1 H2))).
Defined.

(** ** The position is only read *)

Section Frame.

Variable float_str : Q -> string.
Variable net : Net.

Lemma cell_print_globals k : globals (snd (cell_print float_str k)) = globals k.
Proof.
  unfold cell_print, mbind, get_sky, print.
  destruct (globals k !! "hcg7_center") as [[| | c] |] eqn:E; try reflexivity.
  cbn. rewrite E. reflexivity.
Qed.

Lemma cell_ra_dec_globals k : globals (snd (cell_ra_dec k)) = globals k.
Proof.
  unfold cell_ra_dec, mbind, get_sky, display.
  destruct (globals k !! "hcg7_center") as [[| | c] |]; reflexivity.
Qed.

Lemma cell_hour_globals k : globals (snd (cell_hour k)) = globals k.
Proof.
  unfold cell_hour, mbind, get_sky, display.
  destruct (globals k !! "hcg7_center") as [[| | c] |]; reflexivity.
Qed.

Lemma cell_show_globals k : globals (snd (cell_show k)) = globals k.
Proof.
  unfold cell_show, mbind, get_sky, display.
  destruct (globals k !! "hcg7_center") as [[| | c] |]; reflexivity.
Qed.

Lemma cell_cutout_with_position im_size im_pixels k :
  globals (snd (cell_cutout_with float_str net im_size im_pixels k))
    !! "hcg7_center"
  = globals k !! "hcg7_center".
Proof.
  destruct (globals k !! "hcg7_center") as [[v | q | c] |] eqn:E.
  3: { rewrite (cell_cutout_with_run float_str net c im_size im_pixels k E).
       rewrite urlretrieve_globals. cbn [globals]. unfold cutout_globals.
       rewrite !lookup_insert_ne by done. exact E. }
  all: unfold cell_cutout_with, mbind, assign, get_sky; cbn;
    rewrite !lookup_insert_ne by done; rewrite E; cbn;
    rewrite !lookup_insert_ne by done; exact E.
Qed.

(** A cell that reads the position leaves its binding as it was. *)
Lemma uses_position_keeps cell k :
  uses_position float_str net cell ->
  globals (snd (cell k)) !! "hcg7_center" = globals k !! "hcg7_center".
Proof.
  intros [].
  - rewrite cell_print_globals. reflexivity.
  - rewrite cell_ra_dec_globals. reflexivity.
  - rewrite cell_hour_globals. reflexivity.
  - rewrite cell_show_globals. reflexivity.
  - apply cell_cutout_with_position.
Qed.

Lemma run_cells_keeps cells :
  Forall (uses_position float_str net) cells ->
  forall k, globals (run_cells cells k) !! "hcg7_center"
            = globals k !! "hcg7_center".
Proof.
  induction 1 as [| cell cells Hcell _ IH]; intros k; [reflexivity |].
  unfold run_cells in *. cbn [fold_left].
  rewrite IH. apply uses_position_keeps. exact Hcell.
Qed.

End Frame.

(** C8: a position is not changed by being used.  After any sequence of
    formatting cells and cutout cells, run against any network, and whether
    or not a request failed, the name [hcg7_center] is bound to the position
    it was bound to, with the same right ascension, declination and frame. *)
Theorem position_unchanged_by_use
    (float_str : Q -> string) (net : Net) (cells : list (M ()))
    (k : Kernel) (c : SkyCoord) :
  Forall (uses_position float_str net) cells ->
  globals k !! "hcg7_center" = Some (Sky c) ->
  exists c' : SkyCoord,
    globals (run_cells cells k) !! "hcg7_center" = Some (Sky c')
    /\ ra c' = ra c /\ dec c' = dec c /\ frame c' = frame c.
Proof.
  intros Hcells Hk. exists c.
  rewrite (run_cells_keeps float_str net cells Hcells k).
  repeat split. exact Hk.
Qed.

Lemma position_unchanged_by_use_witness :
  exists c' : SkyCoord,
    globals (run_cells [cell_print decimal_str; cell_hour;
                        cell_cutout_with decimal_str Run.flaky_net (qty 12 arcmin) 1024;
                        cell_ra_dec;
                        cell_cutout_with decimal_str Run.flaky_net (qty 12 arcmin) 1024]
                       Run.literal_kernel) !! "hcg7_center" = Some (Sky c')
    /\ ra c' = ra Run.literal_position
    /\ dec c' = dec Run.literal_position
    /\ frame c' = frame Run.literal_position.
Proof.
  apply (position_unchanged_by_use decimal_str Run.flaky_net).
  - repeat constructor.
  - vm_compute. reflexivity.
Defined.

(** ** Name resolution *)

Section Resolution.

Lemma from_name_icrs sesame name c :
  from_name sesame name = Ok c -> frame c = ICRS.
Proof.
  intros H. apply from_name_Ok in H. destruct H as (r & d & _ & H).
  apply SkyCoord_new_Ok in H. destruct H as (Hf & _).
  rewrite frame_of_name_icrs in Hf. inversion Hf. reflexivity.
Qed.

Lemma literal_position_constructed :
  SkyCoord_new (qty (981625 # 100000) deg) (qty (88806 # 100000) deg) "icrs"
  = Ok Run.literal_position.
Proof. vm_compute. reflexivity. Qed.

Lemma cell_literal_run k :
  cell_literal k
  = (Ok tt, mkKernel (<["hcg7_center" := Sky Run.literal_position]> (globals k))
                     (files k) (stdout k) (displayed k) (requests k)).
Proof.
  unfold cell_literal, mbind, lift, assign.
  rewrite literal_position_constructed. reflexivity.
Qed.

End Resolution.

(** C5: for every object name, a successful resolution gives a position in
    the ICRS frame, which the cell binds to [hcg7_center].  The cell sends
    one request whatever the outcome: when that request fails the cell raises
    and binds nothing, also against a service that would answer a second
    request.  The other way to a position is the cell with the literal
    numbers, which sends no request and binds an ICRS position. *)
Theorem resolve_gives_icrs_and_never_retries
    (net : Net) (name : string) (k : Kernel) :
  let attempt := sesame net (length (requests k)) in
  let run := cell_from_name_of net name k in
  (forall c, from_name attempt name = Ok c ->
             frame c = ICRS
             /\ fst run = Ok tt
             /\ globals (snd run) !! "hcg7_center" = Some (Sky c))
  /\ requests (snd run) = requests k ++ [Resolve name]
  /\ (attempt name = None ->
      fst run = Raise NameResolveError /\ globals (snd run) = globals k)
  /\ (fst (cell_from_name Run.flaky_net empty_kernel) = Raise NameResolveError
      /\ is_ok (from_name (sesame Run.flaky_net 1) "HCG 7") = true)
  /\ (fst (cell_literal (snd run)) = Ok tt
      /\ globals (snd (cell_literal (snd run))) !! "hcg7_center"
         = Some (Sky Run.literal_position)
      /\ frame Run.literal_position = ICRS
      /\ requests (snd (cell_literal (snd run))) = requests (snd run)).
Proof.
  intros attempt run.
  split.
  { intros c Hc. split; [exact (from_name_icrs _ _ _ Hc) |].
    unfold run, cell_from_name_of, mbind, from_name_req, assign.
    fold attempt. rewrite Hc. cbn. split; [reflexivity | apply lookup_insert_eq]. }
  split.
  { unfold run, cell_from_name_of, mbind, from_name_req, assign. fold attempt.
    destruct (from_name attempt name); reflexivity. }
  split.
  { intros Hnone.
    unfold run, cell_from_name_of, mbind, from_name_req, assign. fold attempt.
    unfold from_name. rewrite Hnone. split; reflexivity. }
  split; [split; vm_compute; reflexivity |].
  rewrite cell_literal_run. cbn [fst snd globals requests].
  repeat split. apply lookup_insert_eq.
Qed.

(** ** Formatting *)

Section Formatting.

Lemma negative_iff (v : Q) : (Qnum v <? 0)%Z = true <-> v < 0.
Proof.
  rewrite Z.ltb_lt. unfold Qlt; simpl. rewrite Z.mul_1_r. reflexivity.
Qed.

Lemma signed_abs (v : Q) :
  (if (Qnum v <? 0)%Z then - Qabs v else Qabs v) == v.
Proof.
  destruct (Qnum v <? 0)%Z eqn:E.
  - apply negative_iff in E. rewrite Qabs_neg by lra. ring.
  - apply Qabs_pos. apply Qnot_lt_le. intros H.
    apply negative_iff in H. congruence.
Qed.

(** The sexagesimal fields of an angle denote the angle. *)
Lemma sexagesimal_exact a : sexagesimal_value (sexagesimal a) == value a.
Proof.
  unfold sexagesimal_value, sexagesimal;
    cbn [negative whole minutes seconds].
  set (v := Qabs (value a)).
  set (w := inject_Z (Qfloor v)).
  set (m := inject_Z (Qfloor ((v - w) * 60))).
  assert (E : w + m / 60 + ((v - w) * 60 - m) * 60 / 3600 == v) by field.
  pose proof (signed_abs (value a)) as Hs. fold v in Hs.
  destruct (Qnum (value a) <? 0)%Z; rewrite E; exact Hs.
Qed.

(** The fields are in their ranges. *)
Lemma sexagesimal_ranges a :
  (0 <= whole (sexagesimal a))%Z
  /\ (0 <= minutes (sexagesimal a) < 60)%Z
  /\ 0 <= seconds (sexagesimal a) /\ seconds (sexagesimal a) < 60.
Proof.
  unfold sexagesimal; cbn [whole minutes seconds].
  set (v := Qabs (value a)).
  assert (Hv : 0 <= v) by apply Qabs_nonneg.
  destruct (floor_bracket v) as [Hw1 Hw2].
  set (rm := (v - inject_Z (Qfloor v)) * 60) in *.
  assert (Hrm : 0 <= rm /\ rm < 60) by (unfold rm; split; lra).
  destruct (floor_bracket rm) as [Hm1 Hm2].
  split.
  { change 0%Z with (Qfloor 0). apply Qfloor_resp_le. exact Hv. }
  split.
  { split.
    - change 0%Z with (Qfloor 0). apply Qfloor_resp_le. apply Hrm.
    - apply Z.lt_nge. intros Hge.
      assert (H60 : 60 <= inject_Z (Qfloor rm)).
      { change 60 with (inject_Z 60). rewrite <- Zle_Qle. exact Hge. }
      lra. }
  split; lra.
Qed.

(** Converting an angle to another unit keeps the angle. *)
Lemma deg_of_to un a : deg_of (to un a) == deg_of a.
Proof. unfold deg_of. apply to_value_to. Qed.

End Formatting.

(** ** Reading back what was printed *)

Section ReadBack.

Lemma of_uint_acc_val d acc :
  Z.pos (Pos.of_uint_acc d acc) = uint_val d (Z.pos acc).
Proof.
  revert acc. induction d; intros acc; cbn [Pos.of_uint_acc uint_val];
    [reflexivity | rewrite IHd; f_equal; lia ..].
Qed.

Lemma of_uint_val d : Z.of_N (Pos.of_uint d) = uint_val d 0.
Proof.
  induction d; cbn [Pos.of_uint uint_val Z.of_N];
    [reflexivity | exact IHd | apply of_uint_acc_val ..].
Qed.

Lemma append_String c s r : String c s +:+ r = String c (s +:+ r).
Proof. reflexivity. Qed.

Lemma append_empty r : "" +:+ r = r.
Proof. reflexivity. Qed.


Lemma digits_acc_uint d rest acc cnt :
  ends_number rest ->
  digits_acc (NilEmpty.string_of_uint d +:+ rest) acc cnt
  = (uint_val d acc, (cnt + Decimal.nb_digits d)%nat, rest).
Proof.
  intros Hrest. revert acc cnt.
  induction d; intros acc cnt;
    cbn [NilEmpty.string_of_uint uint_val Decimal.nb_digits];
    rewrite ?append_String, ?append_empty.
  2-11: cbn [digits_acc]; change (is_digit _) with true; cbv iota;
    match goal with
    | |- context [digit_val ?c] =>
        let v := eval vm_compute in (digit_val c) in change (digit_val c) with v
    end;
    rewrite IHd, ?Z.add_0_r, Nat.add_succ_r; reflexivity.
  rewrite Nat.add_0_r.
  destruct rest as [| c r]; [reflexivity |].
  cbn in Hrest |- *. rewrite Hrest. reflexivity.
Qed.

Lemma str_int_digits n :
  (0 <= n)%Z ->
  exists d, str_int n = NilEmpty.string_of_uint d
            /\ uint_val d 0 = n /\ Decimal.nb_digits d <> O.
Proof.
  intros Hn. unfold str_int. destruct n as [| p | p]; [| | lia].
  - exists (Decimal.D0 Decimal.Nil). repeat split. discriminate.
  - exists (Pos.to_uint p). cbn [Z.to_int NilZero.string_of_int].
    pose proof (DecimalPos.Unsigned.to_uint_nonnil p) as Hnil.
    split; [| split].
    + unfold NilZero.string_of_uint.
      destruct (Pos.to_uint p); [congruence | reflexivity ..].
    + rewrite <- of_uint_val, DecimalPos.Unsigned.of_to. reflexivity.
    + destruct (Pos.to_uint p); [congruence | discriminate ..].
Qed.

(** A non-negative integer that was printed is read back. *)
Lemma read_int_str_int n rest :
  (0 <= n)%Z -> ends_number rest ->
  read_int (str_int n +:+ rest) = Some (n, rest).
Proof.
  intros Hn Hrest.
  destruct (str_int_digits n Hn) as (d & -> & Hval & Hlen).
  unfold read_int. rewrite (digits_acc_uint d rest 0%Z O Hrest), Hval.
  cbn [Nat.add]. destruct (Decimal.nb_digits d); [congruence | reflexivity].
Qed.

Lemma str_int_head n :
  (0 <= n)%Z -> exists c r, str_int n = String c r /\ is_digit c = true.
Proof.
  intros Hn. destruct (str_int_digits n Hn) as (d & -> & _ & Hlen).
  destruct d; [cbn in Hlen; congruence | ..];
    cbn [NilEmpty.string_of_uint]; eexists _, _; split; reflexivity.
Qed.

Lemma read_sign_digit c r :
  is_digit c = true -> read_sign (String c r) = (false, String c r).
Proof.
  intros H. unfold read_sign.
  destruct c as [[] [] [] [] [] [] [] []]; try reflexivity; discriminate H.
Qed.

(** The sexagesimal text of an angle reads back as an angle that differs
    from it by what the printing of the seconds lost, over 3600. *)
Lemma parse_angle_to_string_near (num_str : Q -> string) (a : Quantity) (s' : Q) :
  unit a = deg \/ unit a = hourangle ->
  read_decimal (num_str (seconds (sexagesimal a)) +:+ "s") = Some (s', "s") ->
  s' <= 60 ->
  exists b, parse_angle (to_string num_str a) = Ok b
            /\ unit b = unit a
            /\ value b - value a
               == (if negative (sexagesimal a) then -(1) else 1)
                  * ((s' - seconds (sexagesimal a)) / 3600).
Proof.
  intros Hu Hread Hle.
  destruct (sexagesimal_ranges a) as (Hw & Hm & Hs0 & Hs60).
  pose proof (sexagesimal_exact a) as Hexact.
  unfold sexagesimal_value in Hexact.
  set (x := sexagesimal a) in *.
  set (tail_s := num_str (seconds x) +:+ "s") in *.
  set (tail_m := str_int (minutes x) +:+ "m" +:+ tail_s).
  assert (Hstr : exists uc un, (uc = "d"%char /\ un = deg \/ uc = "h"%char /\ un = hourangle)
            /\ unit a = un
            /\ to_string num_str a
               = (if negative x then "-" else "")
                   +:+ str_int (whole x) +:+ String uc tail_m).
  { unfold to_string. fold x.
    destruct Hu as [Hu | Hu]; rewrite Hu; cbn [unit_name];
      [exists "d"%char, deg | exists "h"%char, hourangle];
      (split; [tauto | split; reflexivity]). }
  destruct Hstr as (uc & un & Huc & Hun & ->).
  assert (Hunit : read_unit (String uc tail_m) = Some (un, tail_m))
    by (destruct Huc as [[-> ->] | [-> ->]]; reflexivity).
  assert (Hend_u : ends_number (String uc tail_m))
    by (destruct Huc as [[-> _] | [-> _]]; reflexivity).
  assert (Hbody :
            parse_angle ((if negative x then "-" else "")
                           +:+ str_int (whole x) +:+ String uc tail_m)
            = Ok (mkQuantity
                    (if negative x
                     then - (inject_Z (whole x) + inject_Z (minutes x) / 60 + s' / 3600)
                     else inject_Z (whole x) + inject_Z (minutes x) / 60 + s' / 3600)
                    un)).
  { unfold parse_angle.
    assert (Hsign : read_sign ((if negative x then "-" else "")
                                 +:+ str_int (whole x) +:+ String uc tail_m)
                    = (negative x, str_int (whole x) +:+ String uc tail_m)).
    { destruct (negative x); [reflexivity |].
      rewrite append_empty.
      destruct (str_int_head (whole x) Hw) as (c & r & Hc & Hd).
      rewrite Hc, append_String. apply read_sign_digit. exact Hd. }
    rewrite Hsign.
    rewrite (read_int_str_int (whole x) _ Hw Hend_u). cbn [of_option Exc.bind snd fst].
    rewrite Hunit. cbn [of_option Exc.bind snd fst].
    unfold tail_m at 1.
    rewrite (read_int_str_int (minutes x) ("m" +:+ tail_s) (proj1 Hm) eq_refl).
    rewrite append_String, append_empty.
    cbn [of_option Exc.bind snd fst expect].
    change (Ascii.eqb "m" "m") with true. cbv iota.
    cbn [of_option Exc.bind snd fst]. rewrite Hread.
    cbn [of_option Exc.bind snd fst expect].
    change (Ascii.eqb "s" "s") with true. cbv iota.
    cbn [of_option Exc.bind snd fst String.eqb negb].
    replace (minutes x <=? 60)%Z with true by (symmetry; apply Z.leb_le; lia).
    cbn [negb].
    replace (Qle_bool s' 60) with true
      by (symmetry; apply Qle_bool_iff; exact Hle).
    reflexivity. }
  eexists. split; [exact Hbody |]. split; [symmetry; exact Hun |].
  cbn [value]. rewrite <- Hexact.
  destruct (negative x); field.
Qed.

(** Printing an angle in sexagesimal and reading the text gives the angle
    back, when the seconds are printed so that they read back. *)
Lemma parse_angle_to_string (num_str : Q -> string) (a : Quantity) (s' : Q) :
  unit a = deg \/ unit a = hourangle ->
  read_decimal (num_str (seconds (sexagesimal a)) +:+ "s") = Some (s', "s") ->
  s' == seconds (sexagesimal a) ->
  exists b, parse_angle (to_string num_str a) = Ok b
            /\ unit b = unit a /\ value b == value a.
Proof.
  intros Hu Hread Hs'.
  destruct (sexagesimal_ranges a) as (_ & _ & _ & Hs60).
  assert (Hle : s' <= 60) by (rewrite Hs'; lra).
  destruct (parse_angle_to_string_near num_str a s' Hu Hread Hle)
    as (b & Hb & Hunit & Hval).
  exists b. split; [exact Hb |]. split; [exact Hunit |].
  assert (E : value b - value a == 0).
  { rewrite Hval, Hs'. destruct (negative (sexagesimal a)); field. }
  lra.
Qed.

End ReadBack.

(** C6: the forms in which a position is shown denote the same angles.
    For a bound position the hour cell displays the hour value of the right
    ascension, which is its degree value divided by 15; the cell for ra and
    dec displays the two angles and the cell for the name the position
    itself; the print cell prints the sexagesimal text of ra and dec, and
    the hour value with the text of dec.  An angle converted to hours or to
    degrees is the same angle; the sexagesimal fields that are printed (whole
    part, minutes below 60, seconds below 60, sign) add up to the angle; the
    sexagesimal text reads back as an angle that differs from the one printed
    by what the printing of the seconds lost, over 3600, and as the angle
    itself when the seconds are printed exactly; and the cells that print or
    display leave every global name, the position among them, as it was.
    The equalities are those of the exact numbers: in binary64 the hour value
    displayed for 9.81625 degrees is within one unit in the last place
    (2^-53) of the degree value divided by 15. *)
Theorem formats_denote_same_angles (float_str : Q -> string) (c : SkyCoord) :
  hour_of (ra c) == deg_of (ra c) / 15
  /\ hour_of (ra c) * 15 == deg_of (ra c)
  /\ (forall a un, deg_of (to un a) == deg_of a)
  /\ sexagesimal_value (sexagesimal (to hourangle (ra c))) == hour_of (ra c)
  /\ sexagesimal_value (sexagesimal (to deg (ra c))) == deg_of (ra c)
  /\ sexagesimal_value (sexagesimal (to deg (dec c))) == deg_of (dec c)
  /\ (forall a,
         sexagesimal_value (sexagesimal a) == value a
         /\ (0 <= whole (sexagesimal a))%Z
         /\ (0 <= minutes (sexagesimal a) < 60)%Z
         /\ 0 <= seconds (sexagesimal a) /\ seconds (sexagesimal a) < 60)
  /\ (forall (num_str : Q -> string) (a : Quantity) (s' : Q),
         unit a = deg \/ unit a = hourangle ->
         read_decimal (num_str (seconds (sexagesimal a)) +:+ "s") = Some (s', "s") ->
         s' == seconds (sexagesimal a) ->
         exists b, parse_angle (to_string num_str a) = Ok b
                   /\ unit b = unit a /\ value b == value a)
  /\ (forall k,
         globals (snd (cell_print float_str k)) = globals k
         /\ globals (snd (cell_ra_dec k)) = globals k
         /\ globals (snd (cell_hour k)) = globals k
         /\ globals (snd (cell_show k)) = globals k)
  /\ (forall (num_str : Q -> string) (a : Quantity) (s' : Q),
         unit a = deg \/ unit a = hourangle ->
         read_decimal (num_str (seconds (sexagesimal a)) +:+ "s") = Some (s', "s") ->
         s' <= 60 ->
         exists b, parse_angle (to_string num_str a) = Ok b
                   /\ unit b = unit a
                   /\ value b - value a
                      == (if negative (sexagesimal a) then -(1) else 1)
                         * ((s' - seconds (sexagesimal a)) / 3600))
  /\ (forall k,
         globals k !! "hcg7_center" = Some (Sky c) ->
         (exists h,
             displayed (snd (cell_hour k))
             = displayed k ++ [Val (PyFloat (Fin h))]
             /\ h = hour_of (ra c) /\ h == deg_of (ra c) / 15)
         /\ displayed (snd (cell_ra_dec k))
            = displayed k ++ [Qty (ra c); Qty (dec c)]
         /\ displayed (snd (cell_show k)) = displayed k ++ [Sky c]
         /\ stdout (snd (cell_print float_str k))
            = stdout k
              ++ [to_string float_str (ra c) +:+ " " +:+ to_string float_str (dec c);
                  float_str (hour_of (ra c)) +:+ " "
                    +:+ to_string float_str (dec c)])
  /\ Binary64.close (1 # 2 ^ 53) Binary64.ra_hours
       (Binary64.div Binary64.ra_literal (Binary64.of_Z 15)) = true.
Proof.
  split; [apply hour_of_deg_of |].
  split; [rewrite hour_of_deg_of; field |].
  split; [intros; apply deg_of_to |].
  split; [apply sexagesimal_exact |].
  split; [apply sexagesimal_exact |].
  split; [apply sexagesimal_exact |].
  split.
  { intros a. split; [apply sexagesimal_exact | apply sexagesimal_ranges]. }
  split; [exact parse_angle_to_string |].
  split.
  { intros k. split; [apply cell_print_globals |].
    split; [apply cell_ra_dec_globals |].
    split; [apply cell_hour_globals | apply cell_show_globals]. }
  split; [exact parse_angle_to_string_near |].
  split; [| vm_compute; reflexivity].
  intros k Hc. split; [| split; [| split]].
  - exists (hour_of (ra c)).
    split; [| split; [reflexivity | apply hour_of_deg_of]].
    unfold cell_hour, mbind, get_sky, display. rewrite Hc. reflexivity.
  - unfold cell_ra_dec, mbind, get_sky, display. rewrite Hc.
    cbn [snd displayed]. rewrite <- app_assoc. reflexivity.
  - unfold cell_show, mbind, get_sky, display. rewrite Hc. reflexivity.
  - unfold cell_print, mbind, get_sky, print. rewrite Hc. cbn. rewrite Hc.
    cbn [snd stdout]. rewrite <- app_assoc. reflexivity.
Qed.

Lemma formats_denote_same_angles_witness :
  to_string decimal_str (to hourangle (ra Run.literal_position)) = "0h39m15.9s"
  /\ to_string decimal_str (dec Run.literal_position) = "0d53m17.016s"
  /\ (exists b, parse_angle (to_string decimal_str
                               (to hourangle (ra Run.literal_position))) = Ok b
                /\ unit b = hourangle
                /\ value b == value (to hourangle (ra Run.literal_position)))
  /\ hour_of (ra Run.literal_position) == deg_of (ra Run.literal_position) / 15
  /\ to_string decimal_str (qty (1 # 7) deg) = "0d8m34.28571428571428571s"
  /\ (exists b, parse_angle (to_string decimal_str (qty (1 # 7) deg)) = Ok b
                /\ unit b = deg
                /\ Qabs (value b - (1 # 7)) <= 1 # 10 ^ 20)
  /\ displayed (snd (cell_hour Run.literal_kernel))
     = [Val (PyFloat (Fin (hour_of (ra Run.literal_position))))].
Proof.
  pose proof (formats_denote_same_angles decimal_str Run.literal_position)
    as (Hhour & _ & _ & _ & _ & _ & _ & Hread & _ & Hnear & Hcells & _).
  split; [vm_compute; reflexivity |].
  split; [vm_compute; reflexivity |].
  split.
  { apply (Hread decimal_str (to hourangle (ra Run.literal_position)) 15.9).
    - right. reflexivity.
    - vm_compute. reflexivity.
    - vm_compute. reflexivity. }
  split; [exact Hhour |].
  split; [vm_compute; reflexivity |].
  split.
  { destruct (Hnear decimal_str (qty (1 # 7) deg) 34.28571428571428571)
      as (b & Hb & Hunit & Hval).
    - left. reflexivity.
    - vm_compute. reflexivity.
    - vm_compute. discriminate.
    - exists b. split; [exact Hb |]. split; [exact Hunit |].
      change (1 # 7) with (value (qty (1 # 7) deg)).
      rewrite Hval. vm_compute. discriminate. }
  assert (Hc : globals Run.literal_kernel !! "hcg7_center"
               = Some (Sky Run.literal_position)) by (vm_compute; reflexivity).
  destruct (Hcells Run.literal_kernel Hc) as ((h & Hd & -> & _) & _).
  exact Hd.
Defined.

(** C3: the right ascension 9.81625 degrees and the hour angle 0h39m15.9s
    are the same angle.  The hour value of the literal position is
    (39*60 + 15.9)/3600 hours, and times 15 it is 9.81625 degrees again; the
    position written in sexagesimal has the right ascension 9.81625 degrees
    and the declination of the literal one; the literal right ascension is
    printed in hours as [0h39m15.9s], which reads back as 9.81625 degrees.
    In binary64, with the conversion factors rounded as the library rounds
    them, the round trip holds within one unit in the last place (2^-49) and
    not exactly: the hour value is 0.6544166666666668, one unit above the
    hours read from [0h39m15.9s]; times 15 it is one unit above the float of
    9.81625; converted back by the library's factor it is that float; and
    [0h39m15.9s] in degrees is one unit below it. *)
Theorem ra_hour_angle_round_trip :
  exists c1 c2 a : _,
    SkyCoord_new (qty 9.81625 deg) (qty 0.88806 deg) "icrs" = Ok c1
    /\ SkyCoord_str "0h39m15.9s" "0d53m17.016s" "icrs" = Ok c2
    /\ deg_of (ra c1) == 9.81625
    /\ hour_of (ra c1) == (39 * 60 + 15.9) / 3600
    /\ (39 * 60 + 15.9) / 3600 * 15 == 9.81625
    /\ hour_of (ra c1) * 15 == deg_of (ra c1)
    /\ hour_of (ra c2) == 0 + 39 / 60 + 15.9 / 3600
    /\ deg_of (ra c2) == 9.81625
    /\ deg_of (ra c2) == deg_of (ra c1)
    /\ deg_of (dec c2) == deg_of (dec c1)
    /\ to_string decimal_str (to hourangle (ra c1)) = "0h39m15.9s"
    /\ parse_angle (to_string decimal_str (to hourangle (ra c1))) = Ok a
    /\ deg_of a == 9.81625
    /\ Binary64.ra_literal = S754_finite false 5526057480271954 (-49)
    /\ Binary64.factor hourangle deg = S754_finite false 8444249301319679 (-49)
    /\ Binary64.ra_hours = S754_finite false 5894461312290085 (-53)
    /\ Binary64.hms_hours = S754_finite false 5894461312290084 (-53)
    /\ Binary64.ra_hours_times_15 = S754_finite false 5526057480271955 (-49)
    /\ Binary64.ra_back = Binary64.ra_literal
    /\ Binary64.hms_deg = S754_finite false 5526057480271953 (-49)
    /\ Binary64.close Binary64.ulp_at_9 Binary64.ra_hours_times_15
         Binary64.ra_literal = true
    /\ Binary64.close Binary64.ulp_at_9 Binary64.ra_back Binary64.ra_literal = true
    /\ Binary64.close Binary64.ulp_at_9 Binary64.hms_deg Binary64.ra_literal = true
    /\ Binary64.close (1 # 2 ^ 53) Binary64.ra_hours Binary64.hms_hours = true
    /\ Binary64.close 0 Binary64.hms_deg Binary64.ra_literal = false
    /\ Binary64.close 0 Binary64.ra_hours_times_15 Binary64.ra_literal = false.
Proof.
  do 3 eexists.
  split; [vm_compute; reflexivity |].
  split; [vm_compute; reflexivity |].
  repeat split; vm_compute; reflexivity.
Qed.

Lemma constructed_valid c : constructed c -> valid c.
Proof.
  intros [sesame name c' H | lon lat name c' H | lon lat name c' H].
  - apply from_name_Ok in H. destruct H as (r & d & _ & H).
    exact (SkyCoord_new_valid _ _ _ _ H).
  - exact (SkyCoord_new_valid _ _ _ _ H).
  - apply SkyCoord_str_Ok in H. destruct H as (a & b & _ & _ & H).
    exact (SkyCoord_new_valid _ _ _ _ H).
Qed.

(** ** The positions a run of the notebook holds *)

Section KernelPositions.

Variable float_str : Q -> string.
Variable net : Net.

Lemma keeps_bind {A B : Type} (m : M A) (f : A -> M B) (P : A -> Prop) (R : B -> Prop) :
  keeps m P -> (forall a, P a -> keeps (f a) R) -> keeps (mbind m f) R.
Proof.
  intros Hm Hf k Hk. unfold mbind.
  destruct (Hm k Hk) as [Hk' Hres].
  destruct (m k) as [[a | e] k'] eqn:E; cbn in *.
  - apply (Hf a (Hres a eq_refl) k' Hk').
  - split; [exact Hk' | discriminate].
Qed.

Lemma keeps_weaken {A : Type} (m : M A) (P R : A -> Prop) :
  keeps m P -> (forall a, P a -> R a) -> keeps m R.
Proof.
  intros Hm HPR k Hk. destruct (Hm k Hk) as [Hk' Hres].
  split; [exact Hk' | intros a Ha; apply HPR, Hres, Ha].
Qed.

Lemma keeps_assign x v : is_constructed v -> keeps (assign x v) (fun _ => True).
Proof.
  intros Hv k [Hg Hd]. split; [| trivial]. split; cbn.
  - intros y c Hy. destruct (decide (x = y)) as [-> | Hne].
    + rewrite lookup_insert_eq in Hy. apply Hv. congruence.
    + rewrite lookup_insert_ne in Hy by exact Hne. exact (Hg y c Hy).
  - exact Hd.
Qed.

Lemma keeps_print line : keeps (print line) (fun _ => True).
Proof. intros k Hk. split; [exact Hk | trivial]. Qed.

Lemma keeps_display v : is_constructed v -> keeps (display v) (fun _ => True).
Proof.
  intros Hv k [Hg Hd]. split; [| trivial]. split; cbn; [exact Hg |].
  intros c Hc. apply in_app_or in Hc as [Hc | [Hc | []]]; [exact (Hd c Hc) |].
  apply Hv. exact Hc.
Qed.

Lemma keeps_get_sky x : keeps (get_sky x) constructed.
Proof.
  intros k Hk. unfold get_sky.
  destruct (globals k !! x) as [[v | q | c] |] eqn:E; cbn;
    (split; [exact Hk | intros a Ha; try discriminate]).
  inversion Ha; subst a. exact (proj1 Hk x c E).
Qed.

Lemma keeps_lift (r : result SkyCoord) :
  (forall c, r = Ok c -> constructed c) -> keeps (lift r) constructed.
Proof. intros Hr k Hk. split; [exact Hk | exact Hr]. Qed.

Lemma keeps_from_name_req name : keeps (from_name_req net name) constructed.
Proof.
  intros k Hk. split; [exact Hk |]. cbn.
  intros c Hc. exact (by_name _ _ _ Hc).
Qed.

Lemma keeps_urlretrieve url filename :
  keeps (urlretrieve net url filename) (fun _ => True).
Proof.
  intros k Hk. unfold urlretrieve.
  destruct (http_get net (length (requests k)) url);
    [| destruct (http_fail net (length (requests k)) url)];
    (split; [exact Hk | trivial]).
Qed.

Lemma sky_constructed c : constructed c -> is_constructed (Sky c).
Proof. intros Hc c' E. inversion E; subst. exact Hc. Qed.

Lemma val_constructed v : is_constructed (Val v).
Proof. intros c E. discriminate. Qed.

Lemma qty_constructed q : is_constructed (Qty q).
Proof. intros c E. discriminate. Qed.

Create HintDb keeps.

#[local] Hint Resolve keeps_assign keeps_print keeps_display keeps_get_sky
  keeps_from_name_req keeps_urlretrieve sky_constructed val_constructed
  qty_constructed : keeps.

Ltac keeps_step :=
  first [ eapply keeps_bind; [solve [eauto with keeps] | intros ? ?]
        | solve [eauto with keeps] ].

(** Each cell of the notebook keeps the positions constructed ones. *)
Lemma notebook_cell_keeps cell :
  notebook_cell float_str net cell -> keeps cell (fun _ => True).
Proof.
  intros [name | | | cell' []].
  - unfold cell_from_name_of. repeat keeps_step.
  - unfold cell_literal. eapply keeps_bind.
    + apply keeps_lift. intros c Hc. exact (by_number _ _ _ _ Hc).
    + intros c Hc. eauto with keeps.
  - unfold cell_sexagesimal. eapply keeps_bind.
    + apply keeps_lift. intros c Hc. exact (by_string _ _ _ _ Hc).
    + intros c Hc. eauto with keeps.
  - unfold cell_print. repeat keeps_step.
  - unfold cell_ra_dec. repeat keeps_step.
  - unfold cell_hour. repeat keeps_step.
  - unfold cell_show. repeat keeps_step.
  - unfold cell_cutout_with. repeat keeps_step.
Qed.

Lemma empty_kernel_positions : positions_constructed empty_kernel.
Proof.
  split; cbn.
  - intros x c H. rewrite lookup_empty in H. discriminate.
  - intros c [].
Qed.

(** Whatever cells are run, in whatever order, from a fresh kernel: every
    position bound or displayed is a constructed one. *)
Lemma run_positions_constructed cells :
  Forall (notebook_cell float_str net) cells ->
  positions_constructed (run_cells cells empty_kernel).
Proof.
  intros Hcells. unfold run_cells.
  generalize empty_kernel_positions. generalize empty_kernel.
  induction Hcells as [| cell cells Hcell _ IH]; intros k Hk; [exact Hk |].
  cbn [fold_left]. apply IH.
  exact (proj1 (notebook_cell_keeps cell Hcell k Hk)).
Qed.

End KernelPositions.

(** With the library's rounded unit sizes the factor from arcminutes to
    arcseconds is the float 60, so that 12 arcminutes are the float 720 and
    the scale of the cell is the quotient evaluated above. *)
Lemma arcsec_of_12_arcmin_in_floats :
  Binary64.factor arcmin arcsec = Binary64.of_Z 60
  /\ Binary64.convert arcmin arcsec (Binary64.of_Z 12) = Binary64.of_Z 720
  /\ Binary64.div (Binary64.convert arcmin arcsec (Binary64.of_Z 12))
       (Binary64.of_Z 1024)
     = Binary64.scale_12_1024.
Proof. repeat split; vm_compute; reflexivity. Qed.

(** C4: every position the notebook can construct, by resolving a name, from
    numbers or from sexagesimal strings, has its right ascension in
    [0, 360) degrees and its declination in [-90, 90] degrees; and so has
    every position that any run of the notebook's cells, against any network,
    leaves bound to a name. *)
Theorem constructed_position_in_range :
  (forall c : SkyCoord,
      constructed c ->
      (0 <= deg_of (ra c) /\ deg_of (ra c) < 360)
      /\ (-(90) <= deg_of (dec c) /\ deg_of (dec c) <= 90))
  /\ (forall (float_str : Q -> string) (net : Net) (cells : list (M ()))
             (x : string) (c : SkyCoord),
         Forall (notebook_cell float_str net) cells ->
         globals (run_cells cells empty_kernel) !! x = Some (Sky c) ->
         (0 <= deg_of (ra c) /\ deg_of (ra c) < 360)
         /\ (-(90) <= deg_of (dec c) /\ deg_of (dec c) <= 90)).
Proof.
  split.
  - exact constructed_valid.
  - intros float_str net cells x c Hcells Hx.
    apply constructed_valid.
    exact (proj1 (run_positions_constructed float_str net cells Hcells) x c Hx).
Qed.

Lemma constructed_position_in_range_witness :
  ((0 <= deg_of (Longitude (qty (-350.5) deg))
    /\ deg_of (Longitude (qty (-350.5) deg)) < 360)
   /\ (-(90) <= deg_of (qty (-5400) arcmin) /\ deg_of (qty (-5400) arcmin) <= 90))
  /\ ((0 <= deg_of (ra Run.literal_position)
       /\ deg_of (ra Run.literal_position) < 360)
      /\ (-(90) <= deg_of (dec Run.literal_position)
          /\ deg_of (dec Run.literal_position) <= 90)).
Proof.
  split.
  - apply (proj1 constructed_position_in_range
             (mkSkyCoord (Longitude (qty (-350.5) deg)) (qty (-5400) arcmin) FK5)).
    apply (by_number (qty (-350.5) deg) (qty (-5400) arcmin) "fk5").
    vm_compute. reflexivity.
  - apply (proj2 constructed_position_in_range decimal_str Run.flaky_net
             [cell_from_name Run.flaky_net; cell_literal;
              cell_cutout decimal_str Run.flaky_net]
             "hcg7_center" Run.literal_position).
    + repeat constructor.
    + vm_compute. reflexivity.
Defined.

(** C7: a declination outside [-90, 90] degrees is rejected.  The
    constructor returns no position for it and raises [ValueError] when the
    frame is known; the same holds when the declination comes from a
    sexagesimal string or from the resolution service. *)
Theorem declination_out_of_range_rejected (lon lat : Quantity) (name : string) :
  deg_of lat < -(90) \/ 90 < deg_of lat ->
  is_ok (SkyCoord_new lon lat name) = false
  /\ (forall c, SkyCoord_new lon lat name <> Ok c)
  /\ (is_ok (frame_of_name name) = true ->
      SkyCoord_new lon lat name = Raise ValueError)
  /\ (forall lons lats b,
         parse_angle lats = Ok b -> deg_of b == deg_of lat ->
         is_ok (SkyCoord_str lons lats name) = false)
  /\ (forall sesame n r d,
         sesame n = Some (r, d) -> d == deg_of lat ->
         is_ok (from_name sesame n) = false).
Proof.
  intros H.
  pose proof (SkyCoord_new_rejects lon lat name H) as Hrej.
  split; [exact Hrej |].
  split.
  { intros c Hc. rewrite Hc in Hrej. discriminate. }
  split.
  { intros Hf. unfold SkyCoord_new in *.
    destruct (frame_of_name name); [| discriminate].
    cbn. rewrite (Latitude_out_of_range _ H). reflexivity. }
  split.
  { intros lons lats b Hp Hb. unfold SkyCoord_str.
    destruct (parse_angle lons) as [a |]; [| reflexivity].
    cbn. rewrite Hp. cbn. apply SkyCoord_new_rejects.
    destruct H; [left | right]; lra. }
  intros sesame n r d Hs Hd. unfold from_name. rewrite Hs.
  apply SkyCoord_new_rejects.
  assert (E : deg_of (qty d deg) == d) by (rewrite deg_of_eq; cbn; ring).
  destruct H; [left | right]; lra.
Qed.

Lemma declination_out_of_range_rejected_witness :
  (deg_of (qty 90.5 deg) < -(90) \/ 90 < deg_of (qty 90.5 deg))
  /\ SkyCoord_new (qty 9.81625 deg) (qty 90.5 deg) "icrs" = Raise ValueError
  /\ is_ok (SkyCoord_str "0h39m15.9s" "90d30m0s" "icrs") = false.
Proof.
  assert (H : deg_of (qty 90.5 deg) < -(90) \/ 90 < deg_of (qty 90.5 deg))
    by (right; vm_compute; reflexivity).
  pose proof (declination_out_of_range_rejected
                (qty 9.81625 deg) (qty 90.5 deg) "icrs" H) as (_ & _ & Hv & Hs & _).
  split; [exact H |]. split.
  - apply Hv. reflexivity.
  - apply (Hs "0h39m15.9s" "90d30m0s" (mkQuantity (19548000 # 216000) deg)).
    + vm_compute. reflexivity.
    + vm_compute. reflexivity.
Defined.

(** * Further properties of the cells *)

(** ** What [quote_plus] writes *)

Section Quoting.

Lemma count_char_append c a b :
  count_char c (a +:+ b) = (count_char c a + count_char c b)%nat.
Proof.
  induction a as [| c' a IH]; [reflexivity |].
  rewrite append_String. cbn [count_char]. rewrite IH. lia.
Qed.

(** Both hexadecimal digits of an escaped byte are safe characters and give
    the byte back. *)
Lemma percent_digits c :
  let n := N_of_ascii c in
  always_safe (hex_digit (n / 16)) = true
  /\ always_safe (hex_digit (n mod 16)) = true
  /\ hex_val (hex_digit (n / 16)) = Some (n / 16)%N
  /\ hex_val (hex_digit (n mod 16)) = Some (n mod 16)%N
  /\ ascii_of_N (16 * (n / 16) + n mod 16) = c.
Proof.
  destruct c as [[] [] [] [] [] [] [] []]; vm_compute; repeat split.
Qed.

Lemma safe_not_special c :
  always_safe c = true -> Ascii.eqb c "+" = false /\ Ascii.eqb c "%" = false.
Proof.
  destruct c as [[] [] [] [] [] [] [] []]; vm_compute; intros H;
    first [discriminate H | split; reflexivity].
Qed.

(** Reading what was quoted gives the string back. *)
Lemma unquote_plus_quote_plus s : unquote_plus (quote_plus s) = s.
Proof.
  induction s as [| c rest IH]; [reflexivity |].
  cbn [quote_plus].
  destruct (Ascii.eqb c " ") eqn:Hsp.
  { apply Ascii.eqb_eq in Hsp. subst c. cbn [unquote_plus].
    change (Ascii.eqb "+" "+") with true. cbv iota. rewrite IH. reflexivity. }
  destruct (always_safe c) eqn:Hsafe.
  { destruct (safe_not_special c Hsafe) as [Hp Hq].
    cbn [unquote_plus]. rewrite Hp, Hq, IH. reflexivity. }
  destruct (percent_digits c) as (_ & _ & Hh & Hl & Hc).
  unfold percent. rewrite !append_String, append_empty.
  cbn [unquote_plus].
  change (Ascii.eqb "%" "+") with false. change (Ascii.eqb "%" "%") with true.
  cbv iota. rewrite Hh, Hl, Hc, IH. reflexivity.
Qed.

(** A character that is neither safe nor [+] nor [%] is never written. *)
Lemma quote_plus_never_writes c s :
  always_safe c = false -> Ascii.eqb "+" c = false -> Ascii.eqb "%" c = false ->
  count_char c (quote_plus s) = O.
Proof.
  intros Hc Hplus Hpct.
  assert (Hne : forall c', always_safe c' = true -> Ascii.eqb c' c = false).
  { intros c' Hc'. destruct (Ascii.eqb c' c) eqn:E; [| reflexivity].
    apply Ascii.eqb_eq in E. congruence. }
  induction s as [| c0 rest IH]; [reflexivity |].
  cbn [quote_plus].
  destruct (Ascii.eqb c0 " ").
  { cbn [count_char]. rewrite Hplus, IH. reflexivity. }
  destruct (always_safe c0) eqn:Hsafe.
  { cbn [count_char]. rewrite (Hne c0 Hsafe), IH. reflexivity. }
  destruct (percent_digits c0) as (Hh & Hl & _).
  unfold percent. rewrite !append_String, append_empty.
  cbn [count_char]. rewrite Hpct, (Hne _ Hh), (Hne _ Hl), IH. reflexivity.
Qed.

Lemma quote_plus_no_amp s : count_char "&" (quote_plus s) = O.
Proof. apply quote_plus_never_writes; reflexivity. Qed.

Lemma quote_plus_no_eq s : count_char "=" (quote_plus s) = O.
Proof. apply quote_plus_never_writes; reflexivity. Qed.

End Quoting.

(** ** Taking a query string apart *)

Section Splitting.

Lemma split_on_none sep s : count_char sep s = O -> split_on sep s = [s].
Proof.
  induction s as [| c rest IH]; [reflexivity |].
  cbn [count_char split_on]. destruct (Ascii.eqb c sep); [discriminate |].
  intros H. rewrite (IH H). reflexivity.
Qed.

Lemma split_on_first sep a b :
  count_char sep a = O ->
  split_on sep (a +:+ String sep b) = a :: split_on sep b.
Proof.
  induction a as [| c rest IH].
  - intros _. rewrite append_empty. cbn [split_on].
    rewrite Ascii.eqb_refl. reflexivity.
  - rewrite append_String. cbn [count_char split_on].
    destruct (Ascii.eqb c sep); [discriminate |].
    intros H. rewrite (IH H). reflexivity.
Qed.

Lemma break_at_first sep a b :
  count_char sep a = O -> break_at sep (a +:+ String sep b) = (a, b).
Proof.
  induction a as [| c rest IH].
  - intros _. rewrite append_empty. cbn [break_at].
    rewrite Ascii.eqb_refl. reflexivity.
  - rewrite append_String. cbn [count_char break_at].
    destruct (Ascii.eqb c sep); [discriminate |].
    intros H. rewrite (IH H). reflexivity.
Qed.

(** The items joined by [&] come apart again when none of them holds one. *)
Lemma split_on_join_amp x xs :
  Forall (fun y => count_char "&" y = O) (x :: xs) ->
  split_on "&" (join_amp (x :: xs)) = x :: xs.
Proof.
  revert x. induction xs as [| y ys IH]; intros x H.
  - cbn [join_amp]. apply split_on_none. exact (Forall_inv H).
  - change (join_amp (x :: y :: ys)) with (x +:+ "&" +:+ join_amp (y :: ys)).
    rewrite append_String, append_empty.
    rewrite split_on_first by exact (Forall_inv H).
    rewrite IH by exact (Forall_inv_tail H). reflexivity.
Qed.

Lemma join_amp_cons_nonempty x xs :
  count_char "=" x <> O -> String.eqb (join_amp (x :: xs)) "" = false.
Proof.
  intros Hx. destruct xs as [| y ys]; cbn [join_amp].
  - destruct x; [contradiction Hx; reflexivity | reflexivity].
  - destruct x; [contradiction Hx; reflexivity |].
    rewrite append_String. reflexivity.
Qed.

Variable float_str : Q -> string.

Lemma written_item_no_amp kv : count_char "&" (written_item float_str kv) = O.
Proof.
  unfold written_item. rewrite !count_char_append, !quote_plus_no_amp. reflexivity.
Qed.

Lemma written_item_one_eq kv : count_char "=" (written_item float_str kv) = 1%nat.
Proof.
  unfold written_item. rewrite !count_char_append, !quote_plus_no_eq. reflexivity.
Qed.

Lemma decode_written_item kv :
  decode_item (written_item float_str kv) = (fst kv, str float_str (snd kv)).
Proof.
  unfold decode_item, written_item.
  rewrite append_String, append_empty.
  rewrite break_at_first by apply quote_plus_no_eq.
  cbn [fst snd]. rewrite !unquote_plus_quote_plus. reflexivity.
Qed.

Lemma urlencode_items query :
  urlencode float_str query = join_amp (map (written_item float_str) query).
Proof. reflexivity. Qed.

Lemma count_char_join_amp c x xs :
  count_char c (join_amp (x :: xs))
  = (count_char c x
     + fold_right (fun y n => (count_char c "&" + count_char c y + n)%nat) O xs)%nat.
Proof.
  revert x. induction xs as [| y ys IH]; intros x.
  - cbn [join_amp fold_right]. lia.
  - change (join_amp (x :: y :: ys)) with (x +:+ "&" +:+ join_amp (y :: ys)).
    rewrite !count_char_append, IH. cbn [fold_right]. lia.
Qed.

End Splitting.

Section QueryFacts.

Variable float_str : Q -> string.

Lemma count_amp_join x xs :
  Forall (fun y => count_char "&" y = O) (x :: xs) ->
  count_char "&" (join_amp (x :: xs)) = length xs.
Proof.
  revert x. induction xs as [| y ys IH]; intros x H.
  - cbn [join_amp length]. exact (Forall_inv H).
  - change (join_amp (x :: y :: ys)) with (x +:+ "&" +:+ join_amp (y :: ys)).
    rewrite !count_char_append, (Forall_inv H), (IH y (Forall_inv_tail H)).
    reflexivity.
Qed.

Lemma count_eq_join x xs :
  Forall (fun y => count_char "=" y = 1%nat) (x :: xs) ->
  count_char "=" (join_amp (x :: xs)) = S (length xs).
Proof.
  revert x. induction xs as [| y ys IH]; intros x H.
  - cbn [join_amp length]. exact (Forall_inv H).
  - change (join_amp (x :: y :: ys)) with (x +:+ "&" +:+ join_amp (y :: ys)).
    rewrite !count_char_append, (Forall_inv H), (IH y (Forall_inv_tail H)).
    reflexivity.
Qed.

Lemma written_items_no_amp query :
  Forall (fun y => count_char "&" y = O) (map (written_item float_str) query).
Proof.
  induction query as [| kv rest IH]; cbn [map]; constructor;
    [apply written_item_no_amp | exact IH].
Qed.

Lemma written_items_one_eq query :
  Forall (fun y => count_char "=" y = 1%nat) (map (written_item float_str) query).
Proof.
  induction query as [| kv rest IH]; cbn [map]; constructor;
    [apply written_item_one_eq | exact IH].
Qed.

(** Reading a query string back gives the keys and the printed values. *)
Lemma decode_query_urlencode query :
  decode_query (urlencode float_str query) = printed_items float_str query.
Proof.
  rewrite urlencode_items. destruct query as [| kv rest]; [reflexivity |].
  unfold decode_query. cbn [map].
  rewrite join_amp_cons_nonempty
    by (rewrite written_item_one_eq; discriminate).
  rewrite split_on_join_amp
    by (exact (written_items_no_amp (kv :: rest))).
  unfold printed_items. cbn [map]. rewrite decode_written_item. f_equal.
  rewrite map_map. apply map_ext. intros kv'. apply decode_written_item.
Qed.

Lemma append_inv_head s a b : s +:+ a = s +:+ b -> a = b.
Proof.
  induction s as [| c s IH]; [rewrite !append_empty; trivial |].
  rewrite !append_String. intros H. inversion H. auto.
Qed.

Lemma str_int_inj a b : str_int a = str_int b -> a = b.
Proof.
  unfold str_int. intros H.
  assert (Hnil : forall n, Z.to_int n <> Decimal.Pos Decimal.Nil
                           /\ Z.to_int n <> Decimal.Neg Decimal.Nil).
  { intros [| p | p]; cbn [Z.to_int]; (split; [| try discriminate]);
      try discriminate; intros E; inversion E as [E'];
      exact (DecimalPos.Unsigned.to_uint_nonnil p E'). }
  apply DecimalZ.to_int_inj.
  assert (E : Some (Z.to_int a) = Some (Z.to_int b)).
  { rewrite <- (NilZero.isi (Z.to_int a)) by apply Hnil.
    rewrite <- (NilZero.isi (Z.to_int b)) by apply Hnil.
    rewrite H. reflexivity. }
  inversion E. reflexivity.
Qed.

End QueryFacts.

(** X7: a query string written by [urlencode] holds one [=] for every item
    of the dictionary and one [&] between two items, whatever the keys and
    values are and however the floats print: no key or value can add or hide
    a parameter.  The URL of the cutout cell therefore holds four [&], five
    [=] and the one [?] after the endpoint, and no space. *)
Theorem urlencode_separators (float_str : Q -> string) :
  (forall query : list (string * pyval),
      count_char "&" (urlencode float_str query) = (length query - 1)%nat
      /\ count_char "=" (urlencode float_str query) = length query)
  /\ (forall (c : SkyCoord) (im_size : Quantity) (im_pixels : Z),
         count_char "&" (cutout_url float_str c im_size im_pixels) = 4%nat
         /\ count_char "=" (cutout_url float_str c im_size im_pixels) = 5%nat
         /\ count_char "?" (cutout_url float_str c im_size im_pixels) = 1%nat
         /\ count_char " " (cutout_url float_str c im_size im_pixels) = 0%nat).
Proof.
  assert (Hgen : forall query : list (string * pyval),
             count_char "&" (urlencode float_str query) = (length query - 1)%nat
             /\ count_char "=" (urlencode float_str query) = length query).
  { intros query. rewrite urlencode_items.
    destruct query as [| kv rest]; [split; reflexivity |].
    cbn [map length]. split.
    - rewrite count_amp_join by exact (written_items_no_amp float_str (kv :: rest)).
      rewrite length_map. lia.
    - rewrite count_eq_join by exact (written_items_one_eq float_str (kv :: rest)).
      rewrite length_map. reflexivity. }
  split; [exact Hgen |].
  intros c im_size im_pixels. unfold cutout_url.
  destruct (Hgen (cutout_query c im_size im_pixels)) as [Hamp Heq].
  rewrite !count_char_append, Hamp, Heq.
  repeat split; try reflexivity.
  - rewrite urlencode_items. unfold cutout_query. cbn [map join_amp].
    unfold written_item. cbn [fst snd].
    rewrite !count_char_append.
    rewrite !(quote_plus_never_writes "?") by reflexivity. reflexivity.
  - rewrite urlencode_items. unfold cutout_query. cbn [map join_amp].
    unfold written_item. cbn [fst snd].
    rewrite !count_char_append.
    rewrite !(quote_plus_never_writes " ") by reflexivity. reflexivity.
Qed.

(** X8: [urlencode] loses nothing.  Taking the query string apart at [&] and
    [=] and undoing the quoting gives back every key with its printed value,
    in order; so two dictionaries with the same query string have the same
    keys and the same printed values. *)
Theorem urlencode_reads_back (float_str : Q -> string) :
  (forall query : list (string * pyval),
      decode_query (urlencode float_str query) = printed_items float_str query)
  /\ (forall s : string, unquote_plus (quote_plus s) = s)
  /\ (forall q1 q2 : list (string * pyval),
         urlencode float_str q1 = urlencode float_str q2 ->
         printed_items float_str q1 = printed_items float_str q2).
Proof.
  split; [apply decode_query_urlencode |].
  split; [apply unquote_plus_quote_plus |].
  intros q1 q2 H.
  rewrite <- (decode_query_urlencode float_str q1),
          <- (decode_query_urlencode float_str q2), H.
  reflexivity.
Qed.

(** X9: the request URL of the cutout cell fixes what was asked for: two
    cells that bind the same URL have the same pixel count, and their right
    ascensions, declinations and scales print alike. *)
Theorem cutout_url_fixes_parameters
    (float_str : Q -> string) (c1 c2 : SkyCoord)
    (size1 size2 : Quantity) (pixels1 pixels2 : Z) :
  cutout_url float_str c1 size1 pixels1 = cutout_url float_str c2 size2 pixels2 ->
  pixels1 = pixels2
  /\ float_str (deg_of (ra c1)) = float_str (deg_of (ra c2))
  /\ float_str (deg_of (dec c1)) = float_str (deg_of (dec c2))
  /\ str_float float_str (scale size1 pixels1)
     = str_float float_str (scale size2 pixels2).
Proof.
  unfold cutout_url. intros H.
  apply append_inv_head in H. apply append_inv_head in H.
  assert (E : printed_items float_str (cutout_query c1 size1 pixels1)
              = printed_items float_str (cutout_query c2 size2 pixels2)).
  { rewrite <- !decode_query_urlencode, H. reflexivity. }
  unfold printed_items, cutout_query in E. cbn [map fst snd str] in E.
  inversion E as [[Hra Hdec Hw Hh Hs]].
  split; [exact (str_int_inj _ _ Hw) |].
  repeat split; assumption.
Qed.

Lemma cutout_url_fixes_parameters_witness :
  1024%Z = 1024%Z
  /\ decimal_str (deg_of (ra Run.literal_position))
     = decimal_str (deg_of (qty (0 + 39 / 60 + 15.9 / 3600) hourangle)).
Proof.
  pose proof (cutout_url_fixes_parameters decimal_str Run.literal_position
                (mkSkyCoord (qty (0 + 39 / 60 + 15.9 / 3600) hourangle)
                            (qty (0 + 53 / 60 + 17.016 / 3600) deg) ICRS)
                (qty 12 arcmin) (qty 720 arcsec) 1024 1024) as H.
  assert (Hurl : cutout_url decimal_str Run.literal_position (qty 12 arcmin) 1024
                 = cutout_url decimal_str
                     (mkSkyCoord (qty (0 + 39 / 60 + 15.9 / 3600) hourangle)
                                 (qty (0 + 53 / 60 + 17.016 / 3600) deg) ICRS)
                     (qty 720 arcsec) 1024)
    by (vm_compute; reflexivity).
  destruct (H Hurl) as (Hp & Hra & _).
  split; [exact Hp | exact Hra].
Defined.

(** ** What a cell touches *)

Section Footprint.

Variable float_str : Q -> string.
Variable net : Net.

Lemma kernel_eta k :
  mkKernel (globals k) (files k) (stdout k) (displayed k) (requests k) = k.
Proof. destruct k; reflexivity. Qed.

(** The print cell run on a bound position. *)
Lemma cell_print_run c k :
  globals k !! "hcg7_center" = Some (Sky c) ->
  cell_print float_str k
  = (Ok tt,
     mkKernel (globals k) (files k)
       ((stdout k
         ++ [to_string float_str (ra c) +:+ " " +:+ to_string float_str (dec c)])
        ++ [float_str (hour_of (ra c)) +:+ " " +:+ to_string float_str (dec c)])
       (displayed k) (requests k)).
Proof.
  intros H. unfold cell_print, mbind, get_sky, print. rewrite H. cbn. rewrite H.
  reflexivity.
Qed.

(** A cell that reads the position, run where there is none. *)
Lemma get_sky_unbound k :
  (forall c, globals k !! "hcg7_center" <> Some (Sky c)) ->
  exists e, get_sky "hcg7_center" k = (Raise e, k)
            /\ (globals k !! "hcg7_center" = None -> e = NameError).
Proof.
  intros H. unfold get_sky.
  destruct (globals k !! "hcg7_center") as [[v | q | c] |].
  - exists AttributeError. split; [reflexivity | discriminate].
  - exists AttributeError. split; [reflexivity | discriminate].
  - exfalso. exact (H c eq_refl).
  - exists NameError. split; reflexivity.
Qed.

Lemma position_bound_or_not k :
  (exists c, globals k !! "hcg7_center" = Some (Sky c))
  \/ (forall c, globals k !! "hcg7_center" <> Some (Sky c)).
Proof.
  destruct (globals k !! "hcg7_center") as [[v | q | c] |];
    [right | right | left; exists c; reflexivity | right]; intros c'; discriminate.
Qed.

Lemma cell_print_only_shows : only_shows (cell_print float_str).
Proof.
  intros k. destruct (position_bound_or_not k) as [[c Hc] | Hno].
  - rewrite (cell_print_run c k Hc). cbn [snd globals files requests stdout displayed].
    repeat split; [| exists []; symmetry; apply app_nil_r].
    eexists. rewrite <- app_assoc. reflexivity.
  - destruct (get_sky_unbound k Hno) as (e & He & _).
    unfold cell_print, mbind. rewrite He. cbn [snd].
    repeat split; exists []; symmetry; apply app_nil_r.
Qed.

Lemma cell_ra_dec_only_shows : only_shows cell_ra_dec.
Proof.
  intros k. unfold cell_ra_dec, mbind, get_sky, display.
  destruct (globals k !! "hcg7_center") as [[v | q | c] |];
    cbn [snd globals files requests stdout displayed];
    repeat split;
    try (exists []; symmetry; apply app_nil_r).
  eexists. rewrite <- app_assoc. reflexivity.
Qed.

Lemma cell_hour_only_shows : only_shows cell_hour.
Proof.
  intros k. unfold cell_hour, mbind, get_sky, display.
  destruct (globals k !! "hcg7_center") as [[v | q | c] |];
    cbn [snd globals files requests stdout displayed];
    repeat split;
    try (exists []; symmetry; apply app_nil_r).
  eexists. reflexivity.
Qed.

Lemma cell_show_only_shows : only_shows cell_show.
Proof.
  intros k. unfold cell_show, mbind, get_sky, display.
  destruct (globals k !! "hcg7_center") as [[v | q | c] |];
    cbn [snd globals files requests stdout displayed];
    repeat split;
    try (exists []; symmetry; apply app_nil_r).
  eexists. reflexivity.
Qed.

Lemma cell_sexagesimal_only_shows : only_shows cell_sexagesimal.
Proof.
  intros k. unfold cell_sexagesimal, mbind, lift, display.
  destruct (SkyCoord_str _ _ _) as [c | e];
    cbn [snd globals files requests stdout displayed];
    repeat split;
    try (exists []; symmetry; apply app_nil_r).
  eexists. reflexivity.
Qed.

(** The cutout cell run where no position is bound. *)
Lemma cell_cutout_with_unbound im_size im_pixels k :
  (forall c, globals k !! "hcg7_center" <> Some (Sky c)) ->
  exists e,
    cell_cutout_with float_str net im_size im_pixels k
    = (Raise e,
       mkKernel (<["cutoutbaseurl" := Val (PyStr cutoutbaseurl)]>
                   (<["im_pixels" := Val (PyInt im_pixels)]>
                      (<["im_size" := Qty im_size]> (globals k))))
                (files k) (stdout k) (displayed k) (requests k))
    /\ (globals k !! "hcg7_center" = None -> e = NameError).
Proof.
  intros H.
  set (k3 := mkKernel (<["cutoutbaseurl" := Val (PyStr cutoutbaseurl)]>
                         (<["im_pixels" := Val (PyInt im_pixels)]>
                            (<["im_size" := Qty im_size]> (globals k))))
                      (files k) (stdout k) (displayed k) (requests k)).
  assert (Hsame : globals k3 !! "hcg7_center" = globals k !! "hcg7_center")
    by (cbn [globals k3]; rewrite !lookup_insert_ne by done; reflexivity).
  assert (H3 : forall c, globals k3 !! "hcg7_center" <> Some (Sky c))
    by (intros c; rewrite Hsame; apply H).
  destruct (get_sky_unbound k3 H3) as (e & He & Hname).
  exists e. split.
  - unfold cell_cutout_with, mbind, assign. cbn [fst snd globals files stdout displayed requests].
    fold k3. rewrite He. reflexivity.
  - intros Hnone. apply Hname. rewrite Hsame. exact Hnone.
Qed.

(** What any cell of the notebook may do to the files and the request log. *)
Lemma notebook_cell_footprint cell k :
  notebook_cell float_str net cell ->
  (forall f : string,
      f <> "HCG7_SDSS_cutout.jpg" -> files (snd (cell k)) !! f = files k !! f)
  /\ (exists new, requests (snd (cell k)) = requests k ++ new
                  /\ (length new <= 1)%nat).
Proof.
  assert (Hshow : forall cell', only_shows cell' ->
            (forall f : string,
                f <> "HCG7_SDSS_cutout.jpg" ->
                files (snd (cell' k)) !! f = files k !! f)
            /\ (exists new, requests (snd (cell' k)) = requests k ++ new
                            /\ (length new <= 1)%nat)).
  { intros cell' Hc. destruct (Hc k) as (_ & Hf & Hr & _). split.
    - intros f _. rewrite Hf. reflexivity.
    - exists []. rewrite Hr, app_nil_r. split; [reflexivity | cbn; lia]. }
  intros [name | | | cell' []].
  - unfold cell_from_name_of, mbind, from_name_req, assign.
    destruct (from_name _ name); cbn [snd files requests log];
      (split; [reflexivity | exists [Resolve name]; split; [reflexivity | cbn; lia]]).
  - unfold cell_literal, mbind, lift, assign.
    destruct (SkyCoord_new _ _ _); cbn [snd files requests];
      (split; [reflexivity | exists []; rewrite app_nil_r; split; [reflexivity | cbn; lia]]).
  - apply Hshow, cell_sexagesimal_only_shows.
  - apply Hshow, cell_print_only_shows.
  - apply Hshow, cell_ra_dec_only_shows.
  - apply Hshow, cell_hour_only_shows.
  - apply Hshow, cell_show_only_shows.
  - destruct (position_bound_or_not k) as [[c Hc] | Hno].
    + rewrite (cell_cutout_with_run float_str net c _ _ k Hc). split.
      * intros f Hf. rewrite urlretrieve_files_other by exact Hf. reflexivity.
      * eexists. rewrite urlretrieve_requests. cbn [requests].
        split; [reflexivity | cbn; lia].
    + destruct (cell_cutout_with_unbound im_size im_pixels k Hno) as (e & -> & _).
      cbn [snd files requests]. split; [reflexivity |].
      exists []. rewrite app_nil_r. split; [reflexivity | cbn; lia].
Qed.

End Footprint.

(** X1: the cutout cell run before any position is bound raises
    [NameError] when it comes to reading [hcg7_center].  By then it has bound
    [im_size], [im_pixels] and [cutoutbaseurl]; it has not bound
    [query_string] or [url], has sent no request and has written no file. *)
Theorem cutout_before_position_raises
    (float_str : Q -> string) (net : Net)
    (im_size : Quantity) (im_pixels : Z) (k : Kernel) :
  globals k !! "hcg7_center" = None ->
  let run := cell_cutout_with float_str net im_size im_pixels k in
  fst run = Raise NameError
  /\ requests (snd run) = requests k
  /\ files (snd run) = files k
  /\ globals (snd run) !! "im_size" = Some (Qty im_size)
  /\ globals (snd run) !! "im_pixels" = Some (Val (PyInt im_pixels))
  /\ globals (snd run) !! "cutoutbaseurl" = Some (Val (PyStr cutoutbaseurl))
  /\ globals (snd run) !! "query_string" = globals k !! "query_string"
  /\ globals (snd run) !! "url" = globals k !! "url"
  /\ globals (snd run) !! "hcg7_center" = None.
Proof.
  intros Hnone run.
  assert (Hno : forall c, globals k !! "hcg7_center" <> Some (Sky c))
    by (intros c; rewrite Hnone; discriminate).
  destruct (cell_cutout_with_unbound float_str net im_size im_pixels k Hno)
    as (e & Hrun & He).
  unfold run. rewrite Hrun, (He Hnone). cbn [fst snd globals files requests].
  repeat split.
  - rewrite !lookup_insert_ne by done. apply lookup_insert_eq.
  - rewrite lookup_insert_ne by done. apply lookup_insert_eq.
  - apply lookup_insert_eq.
  - rewrite !lookup_insert_ne by done. reflexivity.
  - rewrite !lookup_insert_ne by done. reflexivity.
  - rewrite !lookup_insert_ne by done. exact Hnone.
Qed.

Lemma cutout_before_position_raises_witness :
  fst (cell_cutout decimal_str Run.good_net empty_kernel) = Exc.Raise NameError
  /\ requests (snd (cell_cutout decimal_str Run.good_net empty_kernel)) = [].
Proof.
  assert (H : globals empty_kernel !! "hcg7_center" = None) by reflexivity.
  pose proof (cutout_before_position_raises decimal_str Run.good_net
                (qty 12 arcmin) 1024 empty_kernel H) as (Hraise & Hreq & _).
  split; [exact Hraise | exact Hreq].
Defined.


Section Runs.

Variable float_str : Q -> string.
Variable net : Net.

Lemma run_cells_cons cell cells k :
  run_cells (cell :: cells) k = run_cells cells (snd (cell k)).
Proof. reflexivity. Qed.

Lemma run_cells_files cells :
  Forall (notebook_cell float_str net) cells ->
  forall k (f : string),
    f <> "HCG7_SDSS_cutout.jpg" -> files (run_cells cells k) !! f = files k !! f.
Proof.
  induction 1 as [| cell cells Hcell _ IH]; intros k f Hf; [reflexivity |].
  rewrite run_cells_cons, (IH _ f Hf).
  exact (proj1 (notebook_cell_footprint float_str net cell k Hcell) f Hf).
Qed.

End Runs.

(** X4: the notebook writes one file only.  After any cells of the notebook,
    in any order and against any network, every file other than
    ['HCG7_SDSS_cutout.jpg'] is as it was, present or absent. *)
Theorem only_the_cutout_file_is_written
    (float_str : Q -> string) (net : Net) (cells : list (M ()))
    (k : Kernel) (f : string) :
  Forall (notebook_cell float_str net) cells ->
  f <> "HCG7_SDSS_cutout.jpg" ->
  files (run_cells cells k) !! f = files k !! f.
Proof. intros H Hf. apply (run_cells_files float_str net cells H k f Hf). Qed.

Lemma only_the_cutout_file_is_written_witness :
  files (run_cells [cell_literal; cell_cutout decimal_str Run.good_net]
                   empty_kernel) !! "notes.txt"
  = files empty_kernel !! "notes.txt".
Proof.
  apply (only_the_cutout_file_is_written decimal_str Run.good_net).
  - repeat constructor.
  - discriminate.
Defined.

(** ** Running the cutout cell again *)

Section Downloads.

Variable float_str : Q -> string.



Lemma cutout_run_kernel net c im_size im_pixels k :
  globals k !! "hcg7_center" = Some (Sky c) ->
  let k1 := snd (cell_cutout_with float_str net im_size im_pixels k) in
  globals k1 = cutout_globals float_str c im_size im_pixels (globals k)
  /\ globals k1 !! "hcg7_center" = Some (Sky c)
  /\ requests k1
     = requests k ++ [Get (cutout_url float_str c im_size im_pixels)]
  /\ length (requests k1) = S (length (requests k)).
Proof.
  intros Hc k1. unfold k1.
  rewrite (cell_cutout_with_run float_str net c im_size im_pixels k Hc).
  rewrite urlretrieve_globals, urlretrieve_requests. cbn [globals requests].
  split; [reflexivity |]. split.
  - unfold cutout_globals. rewrite !lookup_insert_ne by done. exact Hc.
  - split; [reflexivity |]. rewrite length_app. cbn [length]. lia.
Qed.

End Downloads.




(** ** A pixel count of zero *)



(** ** From the resolver's answer to the request *)

Section Flow.

Lemma Qfloor_unit_interval (x : Q) : 0 <= x -> x < 1 -> Qfloor x = 0%Z.
Proof.
  intros H0 H1. destruct (floor_bracket x) as [Hlo Hhi].
  assert (Hlt : inject_Z (Qfloor x) < inject_Z 1) by (change (inject_Z 1) with 1; lra).
  assert (Hgt : inject_Z (-1) < inject_Z (Qfloor x))
    by (change (inject_Z (-1)) with (-(1)); lra).
  rewrite <- Zlt_Qlt in Hlt, Hgt. lia.
Qed.

(** An angle already in [0, 360) degrees is not changed by wrapping. *)
Lemma Longitude_in_range a :
  0 <= deg_of a -> deg_of a < 360 -> value (Longitude a) == value a.
Proof.
  intros Hlo Hhi. rewrite deg_of_eq in Hlo, Hhi.
  pose proof (in_deg_pos (unit a)) as Hu.
  unfold Longitude; cbn [value].
  set (u := in_deg (unit a)) in *.
  assert (Hx : value a / (360 / u) == value a * u / 360) by (field; lra).
  assert (Hf : Qfloor (value a / (360 / u)) = 0%Z).
  { apply Qfloor_unit_interval; rewrite Hx.
    - apply Qle_shift_div_l; [reflexivity | lra].
    - apply Qlt_shift_div_r; [reflexivity | lra]. }
  rewrite Hf. change (inject_Z 0) with 0. field. lra.
Qed.

End Flow.

(** X12: the cutout is requested where the resolver put the object.  When
    the service answers a name with a right ascension in [0, 360) and a
    declination in [-90, 90] degrees, the name cell and then the cutout cell
    leave [hcg7_center] bound to an ICRS position with exactly these degrees,
    and the request log grows by the resolution and by one GET of the URL
    built from that position. *)
Theorem resolved_position_reaches_request
    (float_str : Q -> string) (net : Net) (name : string)
    (im_size : Quantity) (im_pixels : Z) (k : Kernel) (r d : Q) :
  sesame net (length (requests k)) name = Some (r, d) ->
  0 <= r -> r < 360 -> -(90) <= d -> d <= 90 ->
  exists c : SkyCoord,
    deg_of (ra c) == r /\ deg_of (dec c) == d /\ frame c = ICRS
    /\ globals (run_cells [cell_from_name_of net name;
                           cell_cutout_with float_str net im_size im_pixels] k)
         !! "hcg7_center" = Some (Sky c)
    /\ requests (run_cells [cell_from_name_of net name;
                            cell_cutout_with float_str net im_size im_pixels] k)
       = requests k
         ++ [Resolve name; Get (cutout_url float_str c im_size im_pixels)].
Proof.
  intros Hs Hr0 Hr1 Hd0 Hd1.
  assert (Hdeg : forall x, deg_of (qty x deg) == x)
    by (intros x; rewrite deg_of_eq; cbn; ring).
  assert (Hlat : Latitude (qty d deg) = Ok (qty d deg))
    by (apply Latitude_in_range; rewrite Hdeg; assumption).
  set (c := mkSkyCoord (Longitude (qty r deg)) (qty d deg) ICRS).
  assert (Hnew : from_name (sesame net (length (requests k))) name = Ok c).
  { unfold from_name. rewrite Hs. unfold SkyCoord_new.
    rewrite frame_of_name_icrs. cbn [Exc.bind]. rewrite Hlat. reflexivity. }
  set (k1 := snd (cell_from_name_of net name k)).
  assert (Hk1 : globals k1 !! "hcg7_center" = Some (Sky c)
                /\ requests k1 = requests k ++ [Resolve name]).
  { unfold k1, cell_from_name_of, mbind, from_name_req, assign.
    rewrite Hnew. cbn [snd globals requests log].
    split; [apply lookup_insert_eq | reflexivity]. }
  destruct Hk1 as [Hc1 Hreq1].
  destruct (cutout_run_kernel float_str net c im_size im_pixels k1 Hc1)
    as (_ & Hc2 & Hreq2 & _).
  exists c. split.
  { pose proof (Longitude_in_range (qty r deg)) as E.
    rewrite Hdeg in E. specialize (E Hr0 Hr1).
    rewrite deg_of_eq. change (value (Longitude (qty r deg)) * 1 == r).
    rewrite E. change (r * 1 == r). ring. }
  split; [apply Hdeg |]. split; [reflexivity |].
  unfold run_cells. cbn [fold_left]. fold k1.
  split; [exact Hc2 |].
  rewrite Hreq2, Hreq1, <- app_assoc. reflexivity.
Qed.

Lemma resolved_position_reaches_request_witness :
  exists c : SkyCoord,
    deg_of (ra c) == 9.849 /\ deg_of (dec c) == 0.878 /\ frame c = ICRS
    /\ globals (run_cells [cell_from_name_of Run.good_net "HCG 7";
                           cell_cutout_with decimal_str Run.good_net
                             (qty 12 arcmin) 1024] empty_kernel)
         !! "hcg7_center" = Some (Sky c)
    /\ requests (run_cells [cell_from_name_of Run.good_net "HCG 7";
                            cell_cutout_with decimal_str Run.good_net
                              (qty 12 arcmin) 1024] empty_kernel)
       = requests empty_kernel
         ++ [Resolve "HCG 7";
             Get (cutout_url decimal_str c (qty 12 arcmin) 1024)].
Proof.
  apply (resolved_position_reaches_request decimal_str Run.good_net "HCG 7"
           (qty 12 arcmin) 1024 empty_kernel 9.849 0.878).
  - reflexivity.
  - vm_compute. discriminate.
  - vm_compute. reflexivity.
  - vm_compute. discriminate.
  - vm_compute. discriminate.
Defined.
